(** * nanobanana-mcp-server: the Gemini client, its schemas and tool handlers

  A shallow embedding of [services/gemini-client.ts], [schemas/index.ts],
  [index.ts], [types.ts] and [constants.ts], with the properties of the
  request/response translation layer proved over it.

  Strings are Rocq strings (sequences of 8-bit characters): a JavaScript
  string is held as its bytes in UTF-8. JavaScript objects used as
  dictionaries are [gmap]s keyed by strings. A value that
  may be [undefined] at run time is an [option]. *)

From Stdlib Require Import ZArith NArith String Ascii List Lia.
From stdpp Require Import base option list strings gmap pretty.

Open Scope string_scope.
Open Scope Z_scope.

(* ===================================================================== *)
(** ** JavaScript helpers *)
(* ===================================================================== *)

Module Js.

(** [x || d] where [x] is a string or [undefined]: the empty string and
    [undefined] are the falsy values. *)
Definition or_else (x : option string) (d : string) : string :=
  match x with
  | Some "" => d
  | Some s => s
  | None => d
  end.

(** [!x] for a string or [undefined]. *)
Definition falsy (x : option string) : bool :=
  match x with
  | Some "" => true
  | Some _ => false
  | None => true
  end.

(** [String.prototype.toLowerCase] on the ASCII letters. Every character
    outside [A-Z] is left as it is: no other character lower-cases to one
    of the ASCII letters that the extension table of [getMimeTypeFromPath]
    is keyed by. *)
Definition lower_ascii (c : ascii) : ascii :=
  let n := N_of_ascii c in
  if ((65 <=? n) && (n <=? 90))%N then ascii_of_N (n + 32) else c.

Fixpoint toLowerCase (s : string) : string :=
  match s with
  | EmptyString => EmptyString
  | String c s' => String (lower_ascii c) (toLowerCase s')
  end.

(** The UTF-16 code units that the character starting with the byte [c]
    takes: one for a character of one to three bytes, two for a character
    of four bytes (a surrogate pair), none for a continuation byte. *)
Definition utf16_units (c : ascii) : Z :=
  let n := N_of_ascii c in
  if (n <? 128)%N then 1
  else if (n <? 192)%N then 0
  else if (n <? 240)%N then 1
  else 2.

(** [s.length]: the number of UTF-16 code units of the string. *)
Fixpoint utf16_length (s : string) : Z :=
  match s with
  | EmptyString => 0
  | String c rest => utf16_units c + utf16_length rest
  end.

(** [`${n}`] for an integer [n] of fewer than 22 digits: its decimal
    digits, with a minus sign when negative. *)
Definition number_to_string (n : Z) : string := pretty n.

End Js.

(* ===================================================================== *)
(** ** types.ts *)
(* ===================================================================== *)

Module Types.

(** [GeneratedImage]; the [inlineData] object of a part has the same
    shape [{ mimeType: string; data: string }]. *)
Record GeneratedImage := mkImage {
  mimeType : string;
  data : string  (* base64 encoded *)
}.

(** [GeminiPart = GeminiTextPart | GeminiInlineDataPart]. At run time a
    part is an object and the client tells the variants apart by field
    presence (["text" in part], ["inlineData" in part]); a parsed JSON
    object can hold either field, both, or neither. *)
Record GeminiPart := mkPart {
  part_text : option string;
  part_inlineData : option GeneratedImage
}.

Definition textPart (t : string) : GeminiPart := mkPart (Some t) None.
Definition inlineDataPart (d : GeneratedImage) : GeminiPart :=
  mkPart None (Some d).

Inductive Role := user | model_role.

Record GeminiContent := mkContent {
  role : option Role;
  parts : list GeminiPart
}.

Record GenerationConfig := mkConfig {
  responseModalities : option (list string);
  responseMimeType : option string
}.

Record GeminiRequest := mkRequest {
  contents : list GeminiContent;
  generationConfig : option GenerationConfig
}.

Record CandidateContent := mkCandidateContent {
  content_parts : list GeminiPart;
  content_role : string
}.

Record GeminiCandidate := mkCandidate {
  content : CandidateContent;
  candidate_finishReason : string;
  index : Z
}.

Record UsageMetadata := mkUsage {
  promptTokenCount : Z;
  candidatesTokenCount : Z;
  totalTokenCount : Z
}.

(** [candidates] is declared as an array; the client still tests
    [!response.candidates], so an absent field is [None]. *)
Record GeminiResponse := mkResponse {
  candidates : option (list GeminiCandidate);
  usageMetadata : option UsageMetadata;
  modelVersion : option string
}.

Record ImageGenerationResult := mkResult {
  success : bool;
  text : option string;
  image : option GeneratedImage;
  error : option string;
  model : string;
  finishReason : option string
}.

(** [result.text = v] and [result.image = v] on a result object. *)
Definition set_text (r : ImageGenerationResult) (v : string) :=
  mkResult (success r) (Some v) (image r) (error r) (model r) (finishReason r).
Definition set_image (r : ImageGenerationResult) (v : GeneratedImage) :=
  mkResult (success r) (text r) (Some v) (error r) (model r) (finishReason r).

End Types.

(* ===================================================================== *)
(** ** constants.ts *)
(* ===================================================================== *)

Module Constants.

Definition API_BASE_URL : string :=
  "https://generativelanguage.googleapis.com/v1beta".

Definition GEMINI_MODELS_FLASH : string :=
  "gemini-2.0-flash-exp-image-generation".
Definition GEMINI_MODELS_PRO : string := "gemini-2.0-flash-exp".

Definition API_TIMEOUT : Z := 60000.

End Constants.

(* ===================================================================== *)
(** ** The run-time environment and the effects of the client *)
(* ===================================================================== *)

Module Runtime.
Import Types.

(** The [response] of an [AxiosError]: its status and
    [response.data?.error?.message]. *)
Record AxiosResponse := mkAxiosResponse {
  status : Z;
  data_error_message : option string
}.

(** What a [catch] clause can receive. *)
Inductive Thrown :=
| AxiosError (response : option AxiosResponse) (code : option string)
             (message : string)
| PlainError (message : string)     (* any other instance of [Error] *)
| NonError (rendered : string).     (* any other value, as [String(v)] *)

(** [err instanceof Error ? err.message : String(err)] *)
Definition error_message (e : Thrown) : string :=
  match e with
  | AxiosError _ _ m => m
  | PlainError m => m
  | NonError s => s
  end.

Definition Buffer := list Byte.byte.

(** The third argument of [axios.post]. *)
Record AxiosConfig := mkAxiosConfig {
  headers : list (string * string);
  params : list (string * string);
  timeout : Z
}.

(** Everything outside the repository that the code calls into: the
    process environment, Node's [path], [fs/promises] and [Buffer], the
    HTTP client and the stdio transport of the MCP server.
    [path_extension] is the extension that [path.extname] finds, without
    its leading dot. *)
Record Platform := mkPlatform {
  process_env : gmap string string;
  path_extension : string -> option string;
  path_dirname : string -> string;
  fs_readFile : string -> Thrown + Buffer;
  fs_mkdir_recursive : string -> option Thrown;
  fs_writeFile : string -> Buffer -> option Thrown;
  buffer_to_base64 : Buffer -> string;
  buffer_from_base64 : string -> Buffer;
  http_post : string -> GeminiRequest -> AxiosConfig -> Thrown + GeminiResponse;
  transport_connect : option Thrown
}.

(** [path.extname]: the empty string, or a dot followed by the extension. *)
Definition extname (pf : Platform) (p : string) : string :=
  match path_extension pf p with
  | Some e => "." +:+ e
  | None => ""
  end.

(** Observable actions, in the order the code performs them. *)
Inductive Event :=
| EvReadFile (path : string)
| EvMkdir (dir : string)
| EvWriteFile (path : string) (bytes : Buffer)
| EvPost (url : string) (body : GeminiRequest) (config : AxiosConfig)
| EvLog (line : string)
| EvConnect.

Definition is_network (ev : Event) : bool :=
  match ev with
  | EvPost _ _ _ => true
  | _ => false
  end.

(** A computation: the events it performed, and a value or a thrown
    exception. [await] is sequencing. *)
Definition Eff (A : Type) : Type := (list Event * (Thrown + A))%type.

Definition ret {A} (a : A) : Eff A := ([], inr a).
Definition throw {A} (e : Thrown) : Eff A := ([], inl e).

Definition bind {A B} (m : Eff A) (k : A -> Eff B) : Eff B :=
  match m with
  | (t, inl e) => (t, inl e)
  | (t, inr a) => let '(t', r) := k a in ((t ++ t')%list, r)
  end.

(** [try { m } catch (e) { h e }] *)
Definition try_catch {A} (m : Eff A) (h : Thrown -> Eff A) : Eff A :=
  match m with
  | (t, inl e) => let '(t', r) := h e in ((t ++ t')%list, r)
  | (t, inr a) => (t, inr a)
  end.

Definition trace {A} (m : Eff A) : list Event := fst m.
Definition outcome {A} (m : Eff A) : Thrown + A := snd m.

Definition no_network {A} (m : Eff A) : Prop :=
  forallb (fun ev => negb (is_network ev)) (trace m) = true.

Definition of_option_error (o : option Thrown) : Thrown + unit :=
  match o with
  | Some e => inl e
  | None => inr tt
  end.

Definition readFile (pf : Platform) (path : string) : Eff Buffer :=
  ([EvReadFile path], fs_readFile pf path).
Definition mkdir (pf : Platform) (dir : string) : Eff unit :=
  ([EvMkdir dir], of_option_error (fs_mkdir_recursive pf dir)).
Definition writeFile (pf : Platform) (path : string) (b : Buffer) : Eff unit :=
  ([EvWriteFile path b], of_option_error (fs_writeFile pf path b)).
Definition axios_post (pf : Platform) (url : string) (body : GeminiRequest)
    (config : AxiosConfig) : Eff GeminiResponse :=
  ([EvPost url body config], http_post pf url body config).
Definition console_error (line : string) : Eff unit := ([EvLog line], inr tt).
Definition server_connect (pf : Platform) : Eff unit :=
  ([EvConnect], of_option_error (transport_connect pf)).

End Runtime.

Notation "x <- m ;; k" := (Runtime.bind m (fun x => k))
(at level 100, m at next level, right associativity).
Notation "m ;;; k" := (Runtime.bind m (fun _ => k))
(at level 100, right associativity).

(* ===================================================================== *)
(** ** services/gemini-client.ts *)
(* ===================================================================== *)

Module GeminiClient.
Import Types Constants Runtime.

(** The object literal [mimeTypes] of [getMimeTypeFromPath]. *)
Definition mimeTypes : gmap string string :=
  <[".png" := "image/png"]>
  (<[".jpg" := "image/jpeg"]>
  (<[".jpeg" := "image/jpeg"]>
  (<[".webp" := "image/webp"]>
  (<[".gif" := "image/gif"]> ∅)))).

(** Get MIME type from file extension. [extname] yields [""] or a string
    that starts with a dot, so [mimeTypes[ext]] never reaches a property
    inherited by the object literal. *)
Definition getMimeTypeFromPath (pf : Platform) (filePath : string) : string :=
  let ext := Js.toLowerCase (extname pf filePath) in
  Js.or_else (mimeTypes !! ext) "image/png".

Definition missing_key_message : string :=
  "GEMINI_API_KEY environment variable is required. " +:+
  "Get your API key from https://aistudio.google.com/apikey".

(** Get the API key from environment variables. [!apiKey] holds for an
    unset variable and for an empty one. *)
Definition getApiKey (pf : Platform) : Eff string :=
  let apiKey := process_env pf !! "GEMINI_API_KEY" in
  match apiKey with
  | Some k =>
      if Js.falsy apiKey then throw (PlainError missing_key_message)
      else ret k
  | None => throw (PlainError missing_key_message)
  end.

Definition request_url (model : string) : string :=
  API_BASE_URL +:+ "/models/" +:+ model +:+ ":generateContent".

Definition request_config (apiKey : string) : AxiosConfig :=
  mkAxiosConfig [("Content-Type", "application/json")]
                [("key", apiKey)]
                API_TIMEOUT.

(** Make a request to the Gemini API. *)
Definition makeGeminiRequest (pf : Platform) (model : string)
    (request : GeminiRequest) : Eff GeminiResponse :=
  apiKey <- getApiKey pf ;;
  let url := request_url model in
  try_catch
    (axios_post pf url request (request_config apiKey))
    (fun error => throw error).

(** Handle API errors and return user-friendly messages. *)
Definition handleApiError (error : Thrown) : string :=
  let fallback := "Error: " +:+ error_message error in
  match error with
  | AxiosError response code _ =>
      match response with
      | Some resp =>
          let status := status resp in
          let message := data_error_message resp in
          if status =? 400 then
            "Error: Invalid request. " +:+
            Js.or_else message "Check your prompt and parameters."
          else if status =? 401 then
            "Error: Invalid API key. Please check your GEMINI_API_KEY environment variable."
          else if status =? 403 then
            "Error: Access denied. " +:+
            Js.or_else message "Your API key may not have access to this model."
          else if status =? 404 then
            "Error: Model not found. Please check the model name."
          else if status =? 429 then
            "Error: Rate limit exceeded. Please wait before making more requests."
          else if status =? 500 then
            "Error: Gemini API server error. Please try again later."
          else if status =? 503 then
            "Error: Gemini API service unavailable. Please try again later."
          else
            "Error: API request failed with status " +:+
            Js.number_to_string status +:+ ". " +:+ Js.or_else message ""
      | None =>
          if decide (code = Some "ECONNABORTED") then
            "Error: Request timed out. Image generation can take a while - please try again."
          else if decide (code = Some "ENOTFOUND") then
            "Error: Unable to reach Gemini API. Please check your network connection."
          else fallback
      end
  | _ => fallback
  end.

(** The body of the loop over [candidate.content.parts], the same text in
    [generateImage] and [editImage]: the ["text" in part] test comes
    first, ["inlineData" in part] is its [else if]. *)
Definition scan_part (result : ImageGenerationResult) (part : GeminiPart)
    : ImageGenerationResult :=
  match part_text part with
  | Some t => set_text result t
  | None =>
      match part_inlineData part with
      | Some d => set_image result (mkImage (mimeType d) (data d))
      | None => result
      end
  end.

Definition generate_request (prompt : string) : GeminiRequest :=
  mkRequest [mkContent None [textPart prompt]]
            (Some (mkConfig (Some ["TEXT"; "IMAGE"]) None)).

Definition no_candidates_message : string :=
  "No candidates returned from the API".
Definition no_image_message : string :=
  "No image was generated. The model may have refused or encountered an issue.".
Definition no_edited_image_message : string :=
  "No edited image was generated. The model may have refused or encountered an issue.".

(** [generateImage], from the answer of [makeGeminiRequest] to the
    [return] inside the [try] block. *)
Definition generateImage_extract (response : GeminiResponse) (model : string)
    : ImageGenerationResult :=
  match candidates response with
  | None | Some [] =>
      mkResult false None None (Some no_candidates_message) model None
  | Some (candidate :: _) =>
      let result :=
        mkResult true None None None model
                 (Some (candidate_finishReason candidate)) in
      let result := fold_left scan_part (content_parts (content candidate)) result in
      match image result with
      | None =>
          mkResult false (text result) None (Some no_image_message) model None
      | Some _ => result
      end
  end.

(** Generate an image from a text prompt. *)
Definition generateImage (pf : Platform) (prompt model : string)
    : Eff ImageGenerationResult :=
  let request := generate_request prompt in
  try_catch
    (response <- makeGeminiRequest pf model request ;;
     ret (generateImage_extract response model))
    (fun error =>
       ret (mkResult false None None (Some (handleApiError error)) model None)).

Definition edit_request (prompt imageMimeType imageBase64 : string)
    : GeminiRequest :=
  mkRequest
    [mkContent None
       [textPart prompt; inlineDataPart (mkImage imageMimeType imageBase64)]]
    (Some (mkConfig (Some ["TEXT"; "IMAGE"]) None)).

(** [editImage], from the answer of [makeGeminiRequest] to the [return]
    inside the second [try] block. *)
Definition editImage_extract (response : GeminiResponse) (model : string)
    : ImageGenerationResult :=
  match candidates response with
  | None | Some [] =>
      mkResult false None None (Some no_candidates_message) model None
  | Some (candidate :: _) =>
      let result :=
        mkResult true None None None model
                 (Some (candidate_finishReason candidate)) in
      let result := fold_left scan_part (content_parts (content candidate)) result in
      match image result with
      | None =>
          mkResult false (text result) None (Some no_edited_image_message)
                   model None
      | Some _ => result
      end
  end.

(** Edit an image using a text prompt. The image is read from the file
    system at [imagePath]; its MIME type comes from the extension. *)
Definition editImage (pf : Platform) (prompt imagePath model : string)
    : Eff ImageGenerationResult :=
  match
    try_catch
      (imageBuffer <- readFile pf imagePath ;;
       let imageBase64 := buffer_to_base64 pf imageBuffer in
       let imageMimeType := getMimeTypeFromPath pf imagePath in
       ret (inr (imageBase64, imageMimeType)))
      (fun err =>
         ret (inl (mkResult false None None
                     (Some ("Failed to read image file: " +:+ error_message err))
                     model None)))
  with
  | (t, inl e) => (t, inl e)
  | (t, inr (inl early)) => (t, inr early)
  | (t, inr (inr (imageBase64, imageMimeType))) =>
      let request := edit_request prompt imageMimeType imageBase64 in
      let '(t', r) :=
        try_catch
          (response <- makeGeminiRequest pf model request ;;
           ret (editImage_extract response model))
          (fun error =>
             ret (mkResult false None None (Some (handleApiError error))
                           model None))
      in ((t ++ t')%list, r)
  end.

End GeminiClient.

(* ===================================================================== *)
(** ** schemas/index.ts *)
(* ===================================================================== *)

Module Schemas.
Import Constants.

(** A JSON value of a tool call's [arguments] object. *)
Inductive JVal :=
| JNull
| JBool (b : bool)
| JNum (n : Z)
| JStr (s : string)
| JCompound.                        (* an array or an object *)

Inductive ResponseFormat := MARKDOWN | JSON.

Inductive IssueCode :=
| invalid_type
| too_small (message : string)
| too_big (message : string)
| invalid_enum_value
| unrecognized_keys (keys : gset string).

(** A validation issue: the key it is about ([None]: the object itself). *)
Record Issue := mkIssue {
  issue_path : option string;
  issue_code : IssueCode
}.

(** [z.string().min(lo, lo_msg).max(hi, hi_msg)] on the value found under
    [key] ([None]: the key is missing, the value is [undefined]). Lengths
    are JavaScript string lengths, in UTF-16 code units. *)
Definition z_string (key : string) (lo : Z) (lo_msg : string)
    (hi : option (Z * string)) (v : option JVal) : list Issue + string :=
  match v with
  | Some (JStr s) =>
      let small :=
        if Js.utf16_length s <? lo
        then [mkIssue (Some key) (too_small lo_msg)] else [] in
      let big :=
        match hi with
        | Some (n, msg) =>
            if n <? Js.utf16_length s
            then [mkIssue (Some key) (too_big msg)] else []
        | None => []
        end in
      match (small ++ big)%list with
      | [] => inr s
      | issues => inl issues
      end
  | _ => inl [mkIssue (Some key) invalid_type]
  end.

(** [ModelSchema]: [z.enum([FLASH, PRO]).default(FLASH)]. *)
Definition ModelSchema (key : string) (v : option JVal) : list Issue + string :=
  match v with
  | None => inr GEMINI_MODELS_FLASH
  | Some (JStr s) =>
      if decide (s = GEMINI_MODELS_FLASH \/ s = GEMINI_MODELS_PRO)
      then inr s
      else inl [mkIssue (Some key) invalid_enum_value]
  | Some _ => inl [mkIssue (Some key) invalid_type]
  end.

(** [.strict()]: keys outside the shape are an issue. *)
Definition strict (shape : gset string) (raw : gmap string JVal) : list Issue :=
  let extra := dom raw ∖ shape in
  if decide (extra = ∅) then []
  else [mkIssue None (unrecognized_keys extra)].

Definition issues_of {A} (r : list Issue + A) : list Issue :=
  match r with
  | inl l => l
  | inr _ => []
  end.

Record GenerateImageInput := mkGenerateImageInput {
  gi_prompt : string;
  gi_model : string;
  gi_output_path : string
}.

Definition prompt_schema : option JVal -> list Issue + string :=
  z_string "prompt" 1 "Prompt is required"
           (Some (10000, "Prompt must not exceed 10000 characters")).

(** [GenerateImageSchema.parse] *)
Definition GenerateImageSchema (raw : gmap string JVal)
    : list Issue + GenerateImageInput :=
  let prompt := prompt_schema (raw !! "prompt") in
  let model := ModelSchema "model" (raw !! "model") in
  let output_path :=
    z_string "output_path" 1 "Output path is required" None
             (raw !! "output_path") in
  let extra := strict {["prompt"; "model"; "output_path"]} raw in
  match prompt, model, output_path, extra with
  | inr p, inr m, inr o, [] => inr (mkGenerateImageInput p m o)
  | _, _, _, _ =>
      inl (issues_of prompt ++ issues_of model ++ issues_of output_path
           ++ extra)%list
  end.

Record EditImageInput := mkEditImageInput {
  ei_prompt : string;
  ei_image_path : string;
  ei_model : string;
  ei_output_path : string
}.

(** [EditImageSchema.parse] *)
Definition EditImageSchema (raw : gmap string JVal)
    : list Issue + EditImageInput :=
  let prompt := prompt_schema (raw !! "prompt") in
  let image_path :=
    z_string "image_path" 1 "Image path is required" None
             (raw !! "image_path") in
  let model := ModelSchema "model" (raw !! "model") in
  let output_path :=
    z_string "output_path" 1 "Output path is required" None
             (raw !! "output_path") in
  let extra := strict {["prompt"; "image_path"; "model"; "output_path"]} raw in
  match prompt, image_path, model, output_path, extra with
  | inr p, inr i, inr m, inr o, [] => inr (mkEditImageInput p i m o)
  | _, _, _, _, _ =>
      inl (issues_of prompt ++ issues_of image_path ++ issues_of model
           ++ issues_of output_path ++ extra)%list
  end.

(** A property read [params.key] on a parsed [EditImageInput]: the object
    holds the four keys of the schema and nothing else. *)
Definition EditImageInput_get (params : EditImageInput) (key : string)
    : option string :=
  if decide (key = "prompt") then Some (ei_prompt params)
  else if decide (key = "image_path") then Some (ei_image_path params)
  else if decide (key = "model") then Some (ei_model params)
  else if decide (key = "output_path") then Some (ei_output_path params)
  else None.

End Schemas.

(* ===================================================================== *)
(** ** index.ts *)
(* ===================================================================== *)

Module Server.
Import Types Constants Runtime Schemas.

(** A field of the object a handler passes to [JSON.stringify]. *)
Inductive PVal :=
| PUndefined
| PBool (b : bool)
| PStr (s : string).

Definition of_optional (o : option string) : PVal :=
  match o with
  | Some s => PStr s
  | None => PUndefined
  end.

(** The object literal a handler reports, before [JSON.stringify]. *)
Definition Payload := list (string * PVal).

Definition keys (p : Payload) : list string := map fst p.

(** Save image to file if output path is provided. *)
Definition saveImageToFile (pf : Platform) (base64Data outputPath mimeType : string)
    : Eff unit :=
  let dir := path_dirname pf outputPath in
  mkdir pf dir ;;;
  let buffer := buffer_from_base64 pf base64Data in
  writeFile pf outputPath buffer.

(** The handler of [nanobanana_generate_image]. *)
Definition generate_image_handler (pf : Platform) (params : GenerateImageInput)
    : Eff Payload :=
  result <- GeminiClient.generateImage pf (gi_prompt params) (gi_model params) ;;
  match success result, image result with
  | true, Some img =>
      if negb (Js.falsy (Some (gi_output_path params))) then
        try_catch
          (saveImageToFile pf (data img) (gi_output_path params) (mimeType img) ;;;
           ret [("success", PBool true);
                ("saved_to", PStr (gi_output_path params));
                ("mime_type", PStr (mimeType img));
                ("model", PStr (model result));
                ("text", of_optional (text result))])
          (fun err =>
             ret [("success", PBool false);
                  ("error", PStr ("Failed to save image: " +:+ error_message err));
                  ("model", PStr (model result))])
      else
        ret [("success", PBool true);
             ("image_base64", PStr (data img));
             ("mime_type", PStr (mimeType img));
             ("model", PStr (model result));
             ("text", of_optional (text result))]
  | _, _ =>
      ret [("success", PBool false);
           ("error", PStr (Js.or_else (error result) "Unknown error occurred"));
           ("model", PStr (model result));
           ("text", of_optional (text result))]
  end.

(** What the dispatcher hands back for a tool call: the arguments are
    validated against the tool's [inputSchema] before its handler runs. *)
Inductive ToolResult :=
| Rejected (issues : list Issue)
| Reported (payload : Payload).

Definition call_generate_image (pf : Platform) (raw : gmap string JVal)
    : Eff ToolResult :=
  match GenerateImageSchema raw with
  | inl issues => ret (Rejected issues)
  | inr params =>
      payload <- generate_image_handler pf params ;; ret (Reported payload)
  end.

(** The parameter list of [editImage] in gemini-client.ts. *)
Definition editImage_parameters : list string :=
  ["prompt"; "imagePath"; "model"].

(** The argument expressions of the call in the handler of
    [nanobanana_edit_image]:
    [editImage(params.prompt, params.image_base64, params.image_mime_type,
    params.model)]. *)
Definition edit_image_call_arguments (params : EditImageInput)
    : list (option string) :=
  [EditImageInput_get params "prompt";
   EditImageInput_get params "image_base64";
   EditImageInput_get params "image_mime_type";
   EditImageInput_get params "model"].

(** A JavaScript call binds arguments to parameters by position: an
    argument beyond the parameter list is dropped, a parameter beyond
    the argument list is [undefined]. *)
Fixpoint bind_arguments (formals : list string) (actuals : list (option string))
    : list (string * option string) :=
  match formals with
  | [] => []
  | f :: fs =>
      match actuals with
      | [] => (f, None) :: bind_arguments fs []
      | a :: rest => (f, a) :: bind_arguments fs rest
      end
  end.

(** Main function - stdio transport. *)
Definition main (pf : Platform) : Eff unit :=
  (if Js.falsy (process_env pf !! "GEMINI_API_KEY") then
     console_error "WARNING: GEMINI_API_KEY environment variable is not set." ;;;
     console_error "Get your API key from https://aistudio.google.com/apikey" ;;;
     console_error "The server will start but API calls will fail without a valid key."
   else ret tt) ;;;
  server_connect pf ;;;
  console_error "Nanobanana MCP server running via stdio".

End Server.

(* ===================================================================== *)
(** ** Concrete environments and upstream answers for the scenarios *)
(* ===================================================================== *)

Module Scenario.
Import Types Constants Runtime Schemas.

(** An environment whose one file has extension [ext] and contents
    [file], and whose upstream answers every request with [answer]. *)
Definition platform (env : gmap string string) (ext : option string)
    (file : Thrown + Buffer) (answer : Thrown + GeminiResponse) : Platform :=
  mkPlatform env
             (fun _ => ext)
             (fun _ => "/tmp")
             (fun _ => file)
             (fun _ => None)
             (fun _ _ => None)
             (fun _ => "aGk=")
             (fun _ => [Byte.x68; Byte.x69])
             (fun _ _ _ => answer)
             None.

Definition with_key : gmap string string := {["GEMINI_API_KEY" := "k-123"]}.
Definition without_key : gmap string string := ∅.

Definition png : GeneratedImage := mkImage "image/png" "iVBORw0KGgo=".
Definition jpeg : GeneratedImage := mkImage "image/jpeg" "/9j/4AAQ".

Definition answer_of (ps : list GeminiPart) : GeminiResponse :=
  mkResponse (Some [mkCandidate (mkCandidateContent ps "model") "STOP" 0])
             None None.

(** One candidate: a text part, then an image. *)
Definition balloon : GeminiResponse :=
  answer_of [textPart "Here is your balloon"; inlineDataPart png].

(** One candidate: text only. *)
Definition refusal : GeminiResponse :=
  answer_of [textPart "I can't create that image."].

(** One candidate: two images and two texts, interleaved. *)
Definition several : GeminiResponse :=
  answer_of [inlineDataPart png; textPart "first"; inlineDataPart jpeg;
             textPart "second"].

Definition no_candidates : GeminiResponse := mkResponse (Some []) None None.
Definition absent_candidates : GeminiResponse := mkResponse None None None.

Definition file_ok : Thrown + Buffer := inr [Byte.x68; Byte.x69].

End Scenario.

(* ===================================================================== *)
(** ** The vocabulary of the specification *)
(* ===================================================================== *)

Module Spec.
Import Types Constants Runtime GeminiClient.

(** A text part: the part carries a [text] field. *)
Definition is_text_part (p : GeminiPart) : bool :=
  bool_decide (is_Some (part_text p)).

(** An inline-data part, the second variant of [GeminiPart]: the part
    carries [inlineData] and no [text]. *)
Definition is_inline_data_part (p : GeminiPart) : bool :=
  bool_decide (part_text p = None /\ is_Some (part_inlineData p)).

(** The value of the last text part, in part order. *)
Definition last_text (ps : list GeminiPart) : option string :=
  last (omap part_text ps).

Definition inline_data_of (p : GeminiPart) : option GeneratedImage :=
  if is_inline_data_part p then part_inlineData p else None.

(** The payload of the last inline-data part, in part order. *)
Definition last_inline_data (ps : list GeminiPart) : option GeneratedImage :=
  last (omap inline_data_of ps).

(** The upstream answers [request] for [model] with [response]: a key is
    configured and the POST that [makeGeminiRequest] issues returns
    [response]. *)
Definition upstream_answers (pf : Platform) (model : string)
    (request : GeminiRequest) (response : GeminiResponse) : Prop :=
  exists apiKey,
    process_env pf !! "GEMINI_API_KEY" = Some apiKey /\ apiKey <> "" /\
    http_post pf (request_url model) request (request_config apiKey)
      = inr response.

Definition generate_answered (pf : Platform) (prompt model : string)
    (response : GeminiResponse) : Prop :=
  upstream_answers pf model (generate_request prompt) response.

(** The image file was read and the upstream answered the edit request
    built from it. *)
Definition edit_answered (pf : Platform) (prompt imagePath model : string)
    (response : GeminiResponse) : Prop :=
  exists buf,
    fs_readFile pf imagePath = inr buf /\
    upstream_answers pf model
      (edit_request prompt (getMimeTypeFromPath pf imagePath)
                    (buffer_to_base64 pf buf))
      response.

(** The statuses that [handleApiError] has a [case] for. *)
Definition named_statuses : list Z := [400; 401; 403; 404; 429; 500; 503].

Definition is_named_status (s : Z) : bool :=
  bool_decide (s ∈ named_statuses).

Definition http_failure (status : Z) (upstream : option string)
    (code : option string) (message : string) : Thrown :=
  AxiosError (Some (mkAxiosResponse status upstream)) code message.

Definition known_extensions : list string :=
  [".png"; ".jpg"; ".jpeg"; ".webp"; ".gif"].

Definition image_mime_types : list string :=
  ["image/png"; "image/jpeg"; "image/webp"; "image/gif"].

(** The invariant of [ImageGenerationResult]. *)
Definition invariant (r : ImageGenerationResult) : Prop :=
  (success r = true <-> is_Some (image r)) /\
  (is_Some (text r) -> image r = None -> success r = false).

Definition key_missing (pf : Platform) : Prop :=
  Js.falsy (process_env pf !! "GEMINI_API_KEY") = true.

End Spec.

(* ===================================================================== *)
(** ** index.ts, the remaining functions *)
(* ===================================================================== *)

Module Tools.
Import Types Constants Runtime Schemas Server.

(** The object literal [extensions] of [getExtensionFromMimeType]. *)
Definition extensions : gmap string string :=
  <["image/png" := ".png"]>
  (<["image/jpeg" := ".jpg"]>
  (<["image/webp" := ".webp"]>
  (<["image/gif" := ".gif"]> ∅))).

(** The property names every object literal inherits from
    [Object.prototype]; each holds a function or an object, all truthy. *)
Definition Object_prototype_keys : list string :=
  ["constructor"; "__defineGetter__"; "__defineSetter__"; "hasOwnProperty";
   "__lookupGetter__"; "__lookupSetter__"; "isPrototypeOf";
   "propertyIsEnumerable"; "toString"; "valueOf"; "__proto__";
   "toLocaleString"].

(** What [extensions[mimeType] || ".png"] evaluates to: a string, or the
    inherited member of [Object.prototype] that the key names. *)
Inductive Extension :=
| ExtString (s : string)
| ExtInherited (key : string).

(** Get file extension from MIME type. *)
Definition getExtensionFromMimeType (mimeType : string) : Extension :=
  match extensions !! mimeType with
  | Some v => ExtString (Js.or_else (Some v) ".png")
  | None =>
      if decide (mimeType ∈ Object_prototype_keys) then ExtInherited mimeType
      else ExtString ".png"
  end.

(** The handler of [nanobanana_edit_image] from the line after its
    [await editImage(...)]: what it reports for the result it got. *)
Definition edit_image_report (pf : Platform) (params : EditImageInput)
    (result : ImageGenerationResult) : Eff Payload :=
  match success result, image result with
  | true, Some img =>
      if negb (Js.falsy (Some (ei_output_path params))) then
        try_catch
          (saveImageToFile pf (data img) (ei_output_path params) (mimeType img) ;;;
           ret [("success", PBool true);
                ("saved_to", PStr (ei_output_path params));
                ("mime_type", PStr (mimeType img));
                ("model", PStr (model result));
                ("text", of_optional (text result))])
          (fun err =>
             ret [("success", PBool false);
                  ("error", PStr ("Failed to save image: " +:+ error_message err));
                  ("model", PStr (model result))])
      else
        ret [("success", PBool true);
             ("image_base64", PStr (data img));
             ("mime_type", PStr (mimeType img));
             ("model", PStr (model result));
             ("text", of_optional (text result))]
  | _, _ =>
      ret [("success", PBool false);
           ("error", PStr (Js.or_else (error result) "Unknown error occurred"));
           ("model", PStr (model result));
           ("text", of_optional (text result))]
  end.

(** [ListModelsSchema.parse]: a strict object whose [response_format] is
    [z.nativeEnum(ResponseFormat).default(ResponseFormat.MARKDOWN)]. A
    native enum lets strings and numbers through its type test and then
    looks the value up among the enum's values, which here are the two
    strings. *)
Definition ListModelsSchema (raw : gmap string JVal)
    : list Issue + ResponseFormat :=
  let response_format :=
    match raw !! "response_format" with
    | None => inr MARKDOWN
    | Some (JStr s) =>
        if decide (s = "markdown") then inr MARKDOWN
        else if decide (s = "json") then inr JSON
        else inl [mkIssue (Some "response_format") invalid_enum_value]
    | Some (JNum _) =>
        inl [mkIssue (Some "response_format") invalid_enum_value]
    | Some _ => inl [mkIssue (Some "response_format") invalid_type]
    end in
  let extra := strict {["response_format"]} raw in
  match response_format, extra with
  | inr f, [] => inr f
  | _, _ => inl (issues_of response_format ++ extra)%list
  end.

(** An element of the [models] array of the handler of
    [nanobanana_list_models]. *)
Record ModelInfo := mkModelInfo {
  id : string;
  name : string;
  description : string;
  capabilities : list string;
  recommended_for : string
}.

Definition models : list ModelInfo :=
  [mkModelInfo GEMINI_MODELS_FLASH
     "Gemini 2.0 Flash (Image Generation)"
     "Optimized for fast, high-quality image generation from text prompts."
     ["text-to-image"; "image-editing"]
     "General image generation tasks requiring speed and quality";
   mkModelInfo GEMINI_MODELS_PRO
     "Gemini 2.0 Flash Exp"
     "Experimental model with multimodal capabilities."
     ["text-to-image"; "image-editing"; "image-understanding"]
     "Complex image tasks requiring advanced reasoning"].

(** [Array.prototype.join] on strings. *)
Fixpoint join (sep : string) (l : list string) : string :=
  match l with
  | [] => ""
  | [x] => x
  | x :: rest => x +:+ sep +:+ join sep rest
  end.

(** The lines one turn of the loop pushes. *)
Definition model_lines (m : ModelInfo) : list string :=
  ["## " +:+ name m;
   "**Model ID:** `" +:+ id m +:+ "`";
   "";
   description m;
   "";
   "**Capabilities:** " +:+ join ", " (capabilities m);
   "";
   "**Recommended for:** " +:+ recommended_for m;
   "";
   "---";
   ""].

(** [lines] after the loop over [ms]. *)
Definition markdown_lines (ms : list ModelInfo) : list string :=
  fold_left (fun lines m => (lines ++ model_lines m)%list) ms
            ["# Available Gemini Image Generation Models"; ""].

(** What the handler hands back: the object given to [JSON.stringify], or
    the Markdown text. *)
Inductive Listing :=
| ListingJson (listed : list ModelInfo)
| ListingText (rendered : string).

(** The handler of [nanobanana_list_models]. *)
Definition list_models_handler (response_format : ResponseFormat) : Listing :=
  match response_format with
  | JSON => ListingJson models
  | MARKDOWN => ListingText (join (String "010"%char "") (markdown_lines models))
  end.

End Tools.

(* ===================================================================== *)
(** ** More vocabulary: what a call may do *)
(* ===================================================================== *)

Module Vocabulary.
Import Types Constants Runtime GeminiClient Schemas Server.

(** The POST of a call, if the key allows one. *)
Definition post_of (pf : Platform) (model : string) (request : GeminiRequest)
    : list Event :=
  match process_env pf !! "GEMINI_API_KEY" with
  | Some k =>
      if decide (k = "") then []
      else [EvPost (request_url model) request (request_config k)]
  | None => []
  end.

(** No character of [s] is a full stop. *)
Fixpoint dotless (s : string) : bool :=
  match s with
  | EmptyString => true
  | String c rest => negb (Ascii.eqb c ".") && dotless rest
  end.

(** How the fields of a result for [m] hang together: a success has an
    image and a finish reason and no error; a failure has a non-empty
    error and neither image nor finish reason. *)
Definition result_shape (m : string) (r : ImageGenerationResult) : Prop :=
  Types.model r = m /\
  (success r = true ->
   is_Some (image r) /\ is_Some (finishReason r) /\ error r = None) /\
  (success r = false ->
   (exists msg, error r = Some msg /\ msg <> "") /\
   image r = None /\ finishReason r = None).

(** The four object literals a handler reports. *)
Definition failure_report (r : ImageGenerationResult) : Payload :=
  [("success", PBool false);
   ("error", PStr (Js.or_else (error r) "Unknown error occurred"));
   ("model", PStr (model r));
   ("text", of_optional (text r))].

Definition saved_report (path : string) (img : GeneratedImage)
    (r : ImageGenerationResult) : Payload :=
  [("success", PBool true);
   ("saved_to", PStr path);
   ("mime_type", PStr (mimeType img));
   ("model", PStr (model r));
   ("text", of_optional (text r))].

Definition inline_report (img : GeneratedImage) (r : ImageGenerationResult)
    : Payload :=
  [("success", PBool true);
   ("image_base64", PStr (data img));
   ("mime_type", PStr (mimeType img));
   ("model", PStr (model r));
   ("text", of_optional (text r))].

Definition save_failure_report (e : Thrown) (r : ImageGenerationResult)
    : Payload :=
  [("success", PBool false);
   ("error", PStr ("Failed to save image: " +:+ error_message e));
   ("model", PStr (model r))].

(** The events of saving [img] at [path]. *)
Definition mkdir_event (pf : Platform) (path : string) : Event :=
  EvMkdir (path_dirname pf path).
Definition write_event (pf : Platform) (path : string) (img : GeneratedImage)
    : Event :=
  EvWriteFile path (buffer_from_base64 pf (data img)).

(** An environment with a key whose upstream answers with [answer], and
    where no directory can be made. *)
Definition read_only_platform (answer : GeminiResponse) : Platform :=
  mkPlatform {["GEMINI_API_KEY" := "k-123"]}
             (fun _ => None)
             (fun _ => "/srv")
             (fun _ => inl (PlainError "ENOENT: no such file or directory"))
             (fun _ => Some (PlainError "EACCES: permission denied, mkdir '/srv'"))
             (fun _ _ => None)
             (fun _ => "")
             (fun _ => [])
             (fun _ _ _ => inr answer)
             None.

(** A response whose first candidate holds the parts [ps]. *)
Definition response_with_parts (ps : list GeminiPart) (role reason : string)
    (idx : Z) (rest : list GeminiCandidate) (usage : option UsageMetadata)
    (version : option string) : GeminiResponse :=
  mkResponse
    (Some (mkCandidate (mkCandidateContent ps role) reason idx :: rest))
    usage version.

(** [s] written [n] times. *)
Definition repeat_string (n : N) (s : string) : string :=
  N.iter n (fun acc => s +:+ acc) EmptyString.

End Vocabulary.

(* ===================================================================== *)
(** ** Properties of the helpers *)
(* ===================================================================== *)

Module JsFacts.
Import Js.

Lemma or_else_some (s d : string) : s <> "" -> or_else (Some s) d = s.
Proof. destruct s; [congruence | reflexivity]. Qed.

Lemma falsy_false (x : option string) :
  falsy x = false <-> exists s, x = Some s /\ s <> "".
Proof.
  split.
  - destruct x as [[|c s]|]; simpl; try discriminate.
    intros _. exists (String c s). split; [reflexivity | discriminate].
  - intros (s & -> & Hs). destruct s; [congruence | reflexivity].
Qed.

Lemma toLowerCase_idempotent (s : string) :
  toLowerCase (toLowerCase s) = toLowerCase s.
Proof.
  induction s as [|c s IH]; simpl; [reflexivity |].
  rewrite IH. f_equal.
  unfold lower_ascii.
  destruct ((65 <=? N_of_ascii c) && (N_of_ascii c <=? 90))%N eqn:E.
  - apply andb_prop in E as [E1 E2].
    apply N.leb_le in E1, E2.
    assert (Hb : (N_of_ascii c + 32 < 256)%N) by lia.
    rewrite N_ascii_embedding by exact Hb.
    replace ((N_of_ascii c + 32 <=? 90)%N) with false
      by (symmetry; apply N.leb_gt; lia).
    rewrite andb_false_r. reflexivity.
  - rewrite E. reflexivity.
Qed.

End JsFacts.

Module RuntimeFacts.
Import Types Runtime.

Lemma bind_ret_l {A B} (a : A) (k : A -> Eff B) : bind (ret a) k = k a.
Proof. unfold bind, ret. destruct (k a) as [t r]. reflexivity. Qed.

Lemma bind_throw {A B} (e : Thrown) (k : A -> Eff B) :
  bind (throw e) k = throw e.
Proof. reflexivity. Qed.

Lemma bind_ret_r {A} (m : Eff A) : bind m ret = m.
Proof.
  destruct m as [t [e | a]]; simpl; [reflexivity |].
  rewrite app_nil_r. reflexivity.
Qed.

Lemma bind_assoc {A B C} (m : Eff A) (k : A -> Eff B) (h : B -> Eff C) :
  bind (bind m k) h = bind m (fun a => bind (k a) h).
Proof.
  destruct m as [t [e | a]]; simpl; [reflexivity |].
  destruct (k a) as [t1 [e1 | b]]; simpl; [reflexivity |].
  destruct (h b) as [t2 r]. rewrite app_assoc. reflexivity.
Qed.

Lemma try_catch_ret {A} (a : A) (h : Thrown -> Eff A) :
  try_catch (ret a) h = ret a.
Proof. reflexivity. Qed.

(** A [catch] clause that rethrows changes nothing. *)
Lemma try_catch_rethrow {A} (m : Eff A) : try_catch m throw = m.
Proof.
  destruct m as [t [e | a]]; simpl; [| reflexivity].
  rewrite app_nil_r. reflexivity.
Qed.

End RuntimeFacts.

(* ===================================================================== *)
(** ** The response extractor *)
(* ===================================================================== *)

Module ExtractorFacts.
Import Types Constants Runtime GeminiClient Spec.

Lemma image_eta (d : GeneratedImage) : mkImage (mimeType d) (data d) = d.
Proof. destruct d; reflexivity. Qed.

Lemma inline_data_of_text (p : GeminiPart) (t : string) :
  part_text p = Some t -> inline_data_of p = None.
Proof.
  intros H. unfold inline_data_of, is_inline_data_part.
  rewrite bool_decide_eq_false_2; [reflexivity |].
  intros [Hn _]. congruence.
Qed.

Lemma inline_data_of_inline (p : GeminiPart) :
  part_text p = None -> inline_data_of p = part_inlineData p.
Proof.
  intros H. unfold inline_data_of, is_inline_data_part.
  destruct (part_inlineData p) as [d|] eqn:E.
  - rewrite bool_decide_eq_true_2; [reflexivity |]. split; eauto.
  - destruct (bool_decide _); reflexivity.
Qed.

Lemma is_inline_data_part_true (p : GeminiPart) :
  is_inline_data_part p = true <->
  exists d, part_text p = None /\ part_inlineData p = Some d.
Proof.
  unfold is_inline_data_part. rewrite bool_decide_eq_true.
  split.
  - intros [Hn [d Hd]]. eauto.
  - intros (d & Hn & Hd). split; eauto.
Qed.

(** One step of the loop, in the vocabulary of the specification. *)
Lemma scan_part_spec (r : ImageGenerationResult) (p : GeminiPart) :
  scan_part r p =
  mkResult (success r)
           (from_option Some (text r) (part_text p))
           (from_option Some (image r) (inline_data_of p))
           (error r) (model r) (finishReason r).
Proof.
  unfold scan_part.
  destruct (part_text p) as [t|] eqn:Ht.
  - rewrite (inline_data_of_text p t Ht). destruct r; reflexivity.
  - rewrite (inline_data_of_inline p Ht).
    destruct (part_inlineData p) as [d|]; simpl.
    + rewrite image_eta. destruct r; reflexivity.
    + destruct r; reflexivity.
Qed.

(** The whole loop: the last text and the last inline data win, every
    other field keeps its value. *)
Lemma scan_parts_spec (ps : list GeminiPart) (r : ImageGenerationResult) :
  fold_left scan_part ps r =
  mkResult (success r)
           (from_option Some (text r) (last_text ps))
           (from_option Some (image r) (last_inline_data ps))
           (error r) (model r) (finishReason r).
Proof.
  induction ps as [|p ps IH] using rev_ind.
  - destruct r; reflexivity.
  - rewrite fold_left_app. simpl. rewrite IH, scan_part_spec. simpl.
    unfold last_text, last_inline_data. rewrite !omap_app. simpl.
    destruct (part_text p) as [t|], (inline_data_of p) as [d|]; simpl;
      rewrite ?last_snoc, ?app_nil_r; reflexivity.
Qed.

End ExtractorFacts.

(* ===================================================================== *)
(** ** The client: transport, extraction and the result invariant *)
(* ===================================================================== *)

Module ClientFacts.
Import Types Constants Runtime GeminiClient Spec ExtractorFacts.

Lemma getApiKey_present (pf : Platform) (k : string) :
  process_env pf !! "GEMINI_API_KEY" = Some k -> k <> "" ->
  getApiKey pf = ret k.
Proof.
  intros Hk Hne. unfold getApiKey. rewrite Hk.
  destruct k; [congruence | reflexivity].
Qed.

Lemma getApiKey_missing (pf : Platform) :
  key_missing pf -> getApiKey pf = throw (PlainError missing_key_message).
Proof.
  unfold key_missing, getApiKey. intros H. cbv zeta. rewrite H.
  destruct (process_env pf !! "GEMINI_API_KEY"); reflexivity.
Qed.

Lemma makeGeminiRequest_missing (pf : Platform) (model : string)
    (request : GeminiRequest) :
  key_missing pf ->
  makeGeminiRequest pf model request = throw (PlainError missing_key_message).
Proof.
  intros H. unfold makeGeminiRequest. rewrite (getApiKey_missing pf H).
  reflexivity.
Qed.

Lemma makeGeminiRequest_answered (pf : Platform) (model : string)
    (request : GeminiRequest) (response : GeminiResponse) :
  upstream_answers pf model request response ->
  exists k,
    makeGeminiRequest pf model request =
    ([EvPost (request_url model) request (request_config k)], inr response).
Proof.
  intros (k & Hk & Hne & Hpost). exists k.
  unfold makeGeminiRequest. rewrite (getApiKey_present pf k Hk Hne).
  unfold bind, ret, try_catch, axios_post. rewrite Hpost. reflexivity.
Qed.

Lemma generateImage_answered (pf : Platform) (prompt model : string)
    (response : GeminiResponse) :
  generate_answered pf prompt model response ->
  outcome (generateImage pf prompt model)
    = inr (generateImage_extract response model).
Proof.
  intros H. destruct (makeGeminiRequest_answered _ _ _ _ H) as [k Hk].
  unfold generateImage. rewrite Hk. reflexivity.
Qed.

Lemma editImage_answered (pf : Platform) (prompt imagePath model : string)
    (response : GeminiResponse) :
  edit_answered pf prompt imagePath model response ->
  outcome (editImage pf prompt imagePath model)
    = inr (editImage_extract response model).
Proof.
  intros (buf & Hbuf & H).
  destruct (makeGeminiRequest_answered _ _ _ _ H) as [k Hk].
  unfold editImage, readFile. rewrite Hbuf. simpl.
  rewrite Hk. reflexivity.
Qed.

(** The two extractors on a response with a first candidate. *)
Lemma generateImage_extract_candidate (response : GeminiResponse)
    (model : string) (c : GeminiCandidate) (rest : list GeminiCandidate) :
  candidates response = Some (c :: rest) ->
  generateImage_extract response model =
  match last_inline_data (content_parts (content c)) with
  | Some d =>
      mkResult true (last_text (content_parts (content c))) (Some d) None
               model (Some (candidate_finishReason c))
  | None =>
      mkResult false (last_text (content_parts (content c))) None
               (Some no_image_message) model None
  end.
Proof.
  intros H. unfold generateImage_extract. rewrite H, scan_parts_spec. simpl.
  destruct (last_inline_data _), (last_text _); reflexivity.
Qed.

Lemma editImage_extract_candidate (response : GeminiResponse)
    (model : string) (c : GeminiCandidate) (rest : list GeminiCandidate) :
  candidates response = Some (c :: rest) ->
  editImage_extract response model =
  match last_inline_data (content_parts (content c)) with
  | Some d =>
      mkResult true (last_text (content_parts (content c))) (Some d) None
               model (Some (candidate_finishReason c))
  | None =>
      mkResult false (last_text (content_parts (content c))) None
               (Some no_edited_image_message) model None
  end.
Proof.
  intros H. unfold editImage_extract. rewrite H, scan_parts_spec. simpl.
  destruct (last_inline_data _), (last_text _); reflexivity.
Qed.

Lemma extract_no_candidates (response : GeminiResponse) (model : string) :
  candidates response = None \/ candidates response = Some [] ->
  generateImage_extract response model
    = mkResult false None None (Some no_candidates_message) model None /\
  editImage_extract response model
    = mkResult false None None (Some no_candidates_message) model None.
Proof.
  unfold generateImage_extract, editImage_extract.
  intros [-> | ->]; split; reflexivity.
Qed.

Lemma omap_inline_data_of_cons (p : GeminiPart) (ps : list GeminiPart) :
  omap inline_data_of (p :: ps) =
  match inline_data_of p with
  | Some d => d :: omap inline_data_of ps
  | None => omap inline_data_of ps
  end.
Proof. reflexivity. Qed.

Lemma omap_inline_data_of_nil (ps : list GeminiPart) :
  Forall (fun q => is_inline_data_part q = false) ps ->
  omap inline_data_of ps = [].
Proof.
  induction 1 as [|q qs Hq _ IH]; [reflexivity |].
  rewrite omap_inline_data_of_cons.
  unfold inline_data_of at 1. rewrite Hq. exact IH.
Qed.

(** [last_inline_data] picks the inline-data part after which no other
    inline-data part follows. *)
Lemma last_inline_data_split (before after : list GeminiPart)
    (p : GeminiPart) (d : GeneratedImage) :
  part_text p = None -> part_inlineData p = Some d ->
  Forall (fun q => is_inline_data_part q = false) after ->
  last_inline_data (before ++ p :: after) = Some d.
Proof.
  intros Ht Hd Hafter. unfold last_inline_data.
  rewrite omap_app, omap_inline_data_of_cons.
  rewrite (inline_data_of_inline p Ht), Hd.
  rewrite (omap_inline_data_of_nil after Hafter).
  apply last_snoc.
Qed.

Lemma last_inline_data_none (ps : list GeminiPart) :
  Forall (fun q => is_inline_data_part q = false) ps ->
  last_inline_data ps = None.
Proof.
  intros H. unfold last_inline_data.
  rewrite (omap_inline_data_of_nil ps H). reflexivity.
Qed.

Lemma last_inline_data_some (ps : list GeminiPart) :
  Exists (fun q => is_inline_data_part q = true) ps ->
  is_Some (last_inline_data ps).
Proof.
  intros H. apply Exists_exists in H as (q & Hin & Hq).
  apply list_elem_of_split in Hin as (l1 & l2 & ->).
  apply is_inline_data_part_true in Hq as (d & Ht & Hd).
  unfold last_inline_data.
  rewrite omap_app, omap_inline_data_of_cons.
  rewrite (inline_data_of_inline q Ht), Hd.
  destruct (omap inline_data_of l2) as [|x xs _] using rev_ind.
  - rewrite last_snoc. eauto.
  - rewrite app_comm_cons, app_assoc, last_snoc. eauto.
Qed.

End ClientFacts.

(* ===================================================================== *)
(** ** What [generateImage] and [editImage] return *)
(* ===================================================================== *)

Module Extractor.
Import Types Constants Runtime GeminiClient Spec ExtractorFacts ClientFacts.

(** A list that holds an element satisfying [P] splits at the last one. *)
Lemma last_occurrence {A} (P : A -> bool) (l : list A) :
  Exists (fun x => P x = true) l ->
  exists l1 x l2,
    l = (l1 ++ x :: l2)%list /\ P x = true /\
    Forall (fun y => P y = false) l2.
Proof.
  induction l as [|a l IH]; intros H.
  - inversion H.
  - destruct (decide (Exists (fun x => P x = true) l)) as [Hl | Hl].
    + destruct (IH Hl) as (l1 & x & l2 & -> & Hx & Hl2).
      exists (a :: l1), x, l2. auto.
    + inversion H as [? ? Ha | ? ? Ht]; subst; [| contradiction].
      exists [], a, l. repeat split; [exact Ha |].
      apply Forall_forall. intros y Hy.
      destruct (P y) eqn:E; [| reflexivity].
      exfalso. apply Hl. apply Exists_exists. eauto.
Qed.

(** C4. When the upstream answers with a response whose [candidates] is
    absent or empty, [generateImage] and [editImage] both return exactly
    [{success: false, error: "No candidates returned from the API", model}]:
    no text, no image and no finish reason. *)
Theorem no_candidates_result (pf : Platform) (prompt imagePath model : string)
    (response : GeminiResponse) :
  candidates response = None \/ candidates response = Some [] ->
  (generate_answered pf prompt model response ->
   outcome (generateImage pf prompt model) =
   inr (mkResult false None None (Some "No candidates returned from the API")
                 model None)) /\
  (edit_answered pf prompt imagePath model response ->
   outcome (editImage pf prompt imagePath model) =
   inr (mkResult false None None (Some "No candidates returned from the API")
                 model None)).
Proof.
  intros Hc. destruct (extract_no_candidates response model Hc) as [Hg He].
  split; intros Ha.
  - rewrite (generateImage_answered _ _ _ _ Ha). f_equal. exact Hg.
  - rewrite (editImage_answered _ _ _ _ _ Ha). f_equal. exact He.
Qed.

(** C2. When the upstream answers with a response whose first candidate
    holds at least one inline-data part, the parts split at the last
    inline-data part [p], and both [generateImage] and [editImage] return
    [success = true], the image of [p] (its [mimeType] and [data]), the
    value of the last text part if there is one, and the candidate's
    finish reason. *)
Theorem image_part_gives_success (pf : Platform)
    (prompt imagePath model : string) (response : GeminiResponse)
    (c : GeminiCandidate) (rest : list GeminiCandidate) :
  candidates response = Some (c :: rest) ->
  Exists (fun q => is_inline_data_part q = true) (content_parts (content c)) ->
  exists before p d after,
    content_parts (content c) = (before ++ p :: after)%list /\
    part_text p = None /\ part_inlineData p = Some d /\
    Forall (fun q => is_inline_data_part q = false) after /\
    let expected :=
      mkResult true (last_text (content_parts (content c)))
               (Some (mkImage (mimeType d) (data d))) None model
               (Some (candidate_finishReason c)) in
    (generate_answered pf prompt model response ->
     outcome (generateImage pf prompt model) = inr expected) /\
    (edit_answered pf prompt imagePath model response ->
     outcome (editImage pf prompt imagePath model) = inr expected).
Proof.
  intros Hc Hex.
  destruct (last_occurrence is_inline_data_part _ Hex)
    as (before & p & after & Hsplit & Hp & Hafter).
  apply is_inline_data_part_true in Hp as (d & Ht & Hd).
  exists before, p, d, after. repeat split; try assumption.
  - intros Ha. rewrite (generateImage_answered _ _ _ _ Ha). f_equal.
    rewrite (generateImage_extract_candidate _ _ _ _ Hc).
    rewrite Hsplit at 1.
    rewrite (last_inline_data_split before after p d Ht Hd Hafter).
    rewrite image_eta. reflexivity.
  - intros Ha. rewrite (editImage_answered _ _ _ _ _ Ha). f_equal.
    rewrite (editImage_extract_candidate _ _ _ _ Hc).
    rewrite Hsplit at 1.
    rewrite (last_inline_data_split before after p d Ht Hd Hafter).
    rewrite image_eta. reflexivity.
Qed.

(** C3. When the upstream answers with a response whose first candidate
    holds no inline-data part, the result has [success = false], the
    value of the last text part (if any) as [text], and the error
    "No image was generated. ..." from [generateImage], "No edited image
    was generated. ..." from [editImage]. On every response the two
    extractions agree on every field but [error], and their errors differ
    only in that pair of messages. *)
Theorem no_image_part_gives_failure (pf : Platform)
    (prompt imagePath model : string) (response : GeminiResponse)
    (c : GeminiCandidate) (rest : list GeminiCandidate) :
  candidates response = Some (c :: rest) ->
  Forall (fun q => is_inline_data_part q = false) (content_parts (content c)) ->
  (generate_answered pf prompt model response ->
   outcome (generateImage pf prompt model) =
   inr (mkResult false (last_text (content_parts (content c))) None
          (Some "No image was generated. The model may have refused or encountered an issue.")
          model None)) /\
  (edit_answered pf prompt imagePath model response ->
   outcome (editImage pf prompt imagePath model) =
   inr (mkResult false (last_text (content_parts (content c))) None
          (Some "No edited image was generated. The model may have refused or encountered an issue.")
          model None)) /\
  (forall (response' : GeminiResponse) (model' : string),
     let g := generateImage_extract response' model' in
     let e := editImage_extract response' model' in
     success g = success e /\ text g = text e /\ image g = image e /\
     Types.model g = Types.model e /\ finishReason g = finishReason e /\
     (error g = error e \/
      (image g = None /\
       error g = Some "No image was generated. The model may have refused or encountered an issue." /\
       error e = Some "No edited image was generated. The model may have refused or encountered an issue."))).
Proof.
  intros Hc Hno. split; [| split].
  - intros Ha. rewrite (generateImage_answered _ _ _ _ Ha). f_equal.
    rewrite (generateImage_extract_candidate _ _ _ _ Hc).
    rewrite (last_inline_data_none _ Hno). reflexivity.
  - intros Ha. rewrite (editImage_answered _ _ _ _ _ Ha). f_equal.
    rewrite (editImage_extract_candidate _ _ _ _ Hc).
    rewrite (last_inline_data_none _ Hno). reflexivity.
  - intros response' model'.
    destruct (candidates response') as [[|c' rest']|] eqn:Hc'.
    + destruct (extract_no_candidates response' model' (or_intror Hc'))
        as [-> ->]. simpl. auto 10.
    + rewrite (generateImage_extract_candidate _ _ _ _ Hc'),
              (editImage_extract_candidate _ _ _ _ Hc').
      destruct (last_inline_data _); simpl; auto 10.
    + destruct (extract_no_candidates response' model' (or_introl Hc'))
        as [-> ->]. simpl. auto 10.
Qed.

Lemma invariant_failed (t : option string) (e : option string)
    (m : string) (f : option string) :
  invariant (mkResult false t None e m f).
Proof.
  split; simpl.
  - split; [discriminate | intros [x Hx]; discriminate].
  - reflexivity.
Qed.

Lemma invariant_generateImage_extract (response : GeminiResponse)
    (m : string) :
  invariant (generateImage_extract response m).
Proof.
  destruct (candidates response) as [[|c rest]|] eqn:Hc.
  - destruct (extract_no_candidates response m (or_intror Hc)) as [-> _].
    apply invariant_failed.
  - rewrite (generateImage_extract_candidate _ _ _ _ Hc).
    destruct (last_inline_data _) as [d|]; [| apply invariant_failed].
    split; simpl; [split; eauto | discriminate].
  - destruct (extract_no_candidates response m (or_introl Hc)) as [-> _].
    apply invariant_failed.
Qed.

Lemma invariant_editImage_extract (response : GeminiResponse) (m : string) :
  invariant (editImage_extract response m).
Proof.
  destruct (candidates response) as [[|c rest]|] eqn:Hc.
  - destruct (extract_no_candidates response m (or_intror Hc)) as [_ ->].
    apply invariant_failed.
  - rewrite (editImage_extract_candidate _ _ _ _ Hc).
    destruct (last_inline_data _) as [d|]; [| apply invariant_failed].
    split; simpl; [split; eauto | discriminate].
  - destruct (extract_no_candidates response m (or_introl Hc)) as [_ ->].
    apply invariant_failed.
Qed.

(** C1. Whatever the environment does (missing key, unreadable file,
    transport failure, any response), [generateImage] and [editImage]
    return a result, never an exception, and in that result
    [success = true] exactly when [image] is present; a result with text
    and no image has [success = false]. *)
Theorem success_iff_image (pf : Platform) (prompt imagePath model : string) :
  (exists r,
     outcome (generateImage pf prompt model) = inr r /\
     (success r = true <-> is_Some (image r)) /\
     (is_Some (text r) -> image r = None -> success r = false)) /\
  (exists r,
     outcome (editImage pf prompt imagePath model) = inr r /\
     (success r = true <-> is_Some (image r)) /\
     (is_Some (text r) -> image r = None -> success r = false)).
Proof.
  split.
  - unfold generateImage, try_catch, bind.
    destruct (makeGeminiRequest pf model (generate_request prompt))
      as [t [e | response]]; simpl; eexists; (split; [reflexivity |]).
    + apply invariant_failed.
    + apply invariant_generateImage_extract.
  - unfold editImage, readFile, try_catch, bind.
    destruct (fs_readFile pf imagePath) as [e | buf]; simpl.
    + eexists; split; [reflexivity | apply invariant_failed].
    + destruct (makeGeminiRequest pf model _) as [t [e | response]]; simpl;
        eexists; (split; [reflexivity |]).
      * apply invariant_failed.
      * apply invariant_editImage_extract.
Qed.

(** C10. A part that carries both [text] and [inlineData] is handled as
    a text part and nothing else. The loop body sets the result's text to
    the part's text and leaves every other field, the image among them, as
    it was. A candidate that holds such a part, no text part after it and
    no inline-data part at all extracts to the no-image failure with the
    part's text: the part's inline data is not used, in [generateImage]
    and in [editImage]. In general the part's text is the extracted text
    unless a later part has text, and a response holding such a part
    extracts to the same result as the response with the part's inline
    data removed. *)
Theorem part_with_both_fields_is_text (r : ImageGenerationResult)
    (t : string) (d : GeneratedImage) :
  scan_part r (mkPart (Some t) (Some d)) = set_text r t /\
  scan_part r (mkPart (Some t) (Some d)) = scan_part r (textPart t) /\
  image (scan_part r (mkPart (Some t) (Some d))) = image r /\
  (forall (before after : list GeminiPart) (role : string) (reason : string)
          (idx : Z) (rest : list GeminiCandidate)
          (usage : option UsageMetadata) (version : option string)
          (m : string),
     let answer := fun p =>
       mkResponse
         (Some (mkCandidate (mkCandidateContent (before ++ p :: after) role)
                            reason idx :: rest))
         usage version in
     generateImage_extract (answer (mkPart (Some t) (Some d))) m
       = generateImage_extract (answer (textPart t)) m /\
     editImage_extract (answer (mkPart (Some t) (Some d))) m
       = editImage_extract (answer (textPart t)) m) /\
  scan_part r (mkPart (Some t) (Some d))
    = mkResult (success r) (Some t) (image r) (error r) (model r)
               (finishReason r) /\
  (forall (before after : list GeminiPart) (role : string) (reason : string)
          (idx : Z) (rest : list GeminiCandidate)
          (usage : option UsageMetadata) (version : option string)
          (m : string),
     let answer :=
       mkResponse
         (Some (mkCandidate
                  (mkCandidateContent
                     (before ++ mkPart (Some t) (Some d) :: after) role)
                  reason idx :: rest))
         usage version in
     Forall (fun q => part_text q = None) after ->
     text (generateImage_extract answer m) = Some t /\
     text (editImage_extract answer m) = Some t /\
     (Forall (fun q => is_inline_data_part q = false) before ->
      Forall (fun q => is_inline_data_part q = false) after ->
      generateImage_extract answer m =
      mkResult false (Some t) None
        (Some "No image was generated. The model may have refused or encountered an issue.")
        m None /\
      editImage_extract answer m =
      mkResult false (Some t) None
        (Some "No edited image was generated. The model may have refused or encountered an issue.")
        m None)).
Proof.
  split; [reflexivity |]. split; [reflexivity |]. split; [reflexivity |].
  split.
  { intros before after role reason idx rest usage version m. cbv zeta.
    split.
    - unfold generateImage_extract. simpl.
      rewrite !fold_left_app. reflexivity.
    - unfold editImage_extract. simpl.
      rewrite !fold_left_app. reflexivity. }
  split; [destruct r; reflexivity |].
  intros before after role reason idx rest usage version m. cbv zeta.
  intros Hafter.
  assert (Htext : last_text (before ++ mkPart (Some t) (Some d) :: after)
                  = Some t).
  { unfold last_text. rewrite omap_app.
    change (omap part_text (mkPart (Some t) (Some d) :: after))
      with (t :: omap part_text after).
    replace (omap part_text after) with (@nil string).
    - apply last_snoc.
    - symmetry. induction Hafter as [| q qs Hq _ IH]; [reflexivity |].
      change (omap part_text (q :: qs))
        with (match part_text q with
              | Some x => x :: omap part_text qs
              | None => omap part_text qs
              end).
      rewrite Hq. exact IH. }
  erewrite generateImage_extract_candidate by reflexivity.
  erewrite editImage_extract_candidate by reflexivity.
  cbn [content content_parts candidate_finishReason]. rewrite Htext.
  split; [destruct (last_inline_data _); reflexivity |].
  split; [destruct (last_inline_data _); reflexivity |].
  intros Hb Ha.
  assert (Hnone : last_inline_data
                    (before ++ mkPart (Some t) (Some d) :: after) = None).
  { apply last_inline_data_none. apply Forall_app. split; [exact Hb |].
    apply Forall_cons. split; [reflexivity | exact Ha]. }
  rewrite Hnone. split; reflexivity.
Qed.

End Extractor.

(* ===================================================================== *)
(** ** The extractor on the scenarios *)
(* ===================================================================== *)

Module ExtractorScenarios.
Import Types Constants Runtime GeminiClient Spec Scenario.

Lemma scenario_generate_answered (ext : option string) (file : Thrown + Buffer)
    (response : GeminiResponse) (prompt model : string) :
  generate_answered (platform with_key ext file (inr response))
                    prompt model response.
Proof.
  exists "k-123". split; [| split].
  - vm_compute. reflexivity.
  - discriminate.
  - reflexivity.
Qed.

Lemma scenario_edit_answered (ext : option string) (response : GeminiResponse)
    (prompt imagePath model : string) :
  edit_answered (platform with_key ext file_ok (inr response))
                prompt imagePath model response.
Proof.
  exists [Byte.x68; Byte.x69]. split; [reflexivity |].
  exists "k-123". split; [| split].
  - vm_compute. reflexivity.
  - discriminate.
  - reflexivity.
Qed.

Lemma several_has_inline_data_part :
  Exists (fun q => Spec.is_inline_data_part q = true)
         [inlineDataPart png; textPart "first"; inlineDataPart jpeg;
          textPart "second"].
Proof. apply Exists_cons_hd. reflexivity. Qed.

Lemma refusal_has_no_inline_data_part :
  Forall (fun q => Spec.is_inline_data_part q = false)
         [textPart "I can't create that image."].
Proof. repeat constructor. Qed.

(** Empty candidates for a generation, absent candidates for an edit. *)
Lemma no_candidates_result_witness :
  outcome (generateImage (platform with_key None file_ok (inr no_candidates))
                         "a red balloon" GEMINI_MODELS_FLASH)
    = inr (mkResult false None None (Some "No candidates returned from the API")
                    GEMINI_MODELS_FLASH None) /\
  outcome (editImage (platform with_key (Some "png") file_ok
                               (inr absent_candidates))
                     "make it blue" "/tmp/in.png" GEMINI_MODELS_PRO)
    = inr (mkResult false None None (Some "No candidates returned from the API")
                    GEMINI_MODELS_PRO None).
Proof.
  split.
  - apply (proj1 (Extractor.no_candidates_result
             (platform with_key None file_ok (inr no_candidates))
             "a red balloon" "/tmp/in.png" GEMINI_MODELS_FLASH no_candidates
             (or_intror eq_refl))).
    apply scenario_generate_answered.
  - apply (proj2 (Extractor.no_candidates_result
             (platform with_key (Some "png") file_ok (inr absent_candidates))
             "make it blue" "/tmp/in.png" GEMINI_MODELS_PRO absent_candidates
             (or_introl eq_refl))).
    apply scenario_edit_answered.
Defined.

(** Two images and two texts, interleaved. *)
Lemma image_part_gives_success_witness :
  exists before p d after,
    [inlineDataPart png; textPart "first"; inlineDataPart jpeg;
     textPart "second"] = (before ++ p :: after)%list /\
    part_text p = None /\ part_inlineData p = Some d /\
    Forall (fun q => Spec.is_inline_data_part q = false) after /\
    (generate_answered (platform with_key (Some "png") file_ok (inr several))
                       "a red balloon" GEMINI_MODELS_FLASH several ->
     outcome (generateImage (platform with_key (Some "png") file_ok (inr several))
                            "a red balloon" GEMINI_MODELS_FLASH)
       = inr (mkResult true (Some "second")
                       (Some (mkImage (mimeType d) (data d))) None
                       GEMINI_MODELS_FLASH (Some "STOP"))) /\
    (edit_answered (platform with_key (Some "png") file_ok (inr several))
                   "a red balloon" "/tmp/in.png" GEMINI_MODELS_FLASH several ->
     outcome (editImage (platform with_key (Some "png") file_ok (inr several))
                        "a red balloon" "/tmp/in.png" GEMINI_MODELS_FLASH)
       = inr (mkResult true (Some "second")
                       (Some (mkImage (mimeType d) (data d))) None
                       GEMINI_MODELS_FLASH (Some "STOP"))).
Proof.
  exact (Extractor.image_part_gives_success
           (platform with_key (Some "png") file_ok (inr several))
           "a red balloon" "/tmp/in.png" GEMINI_MODELS_FLASH several
           (mkCandidate
              (mkCandidateContent
                 [inlineDataPart png; textPart "first"; inlineDataPart jpeg;
                  textPart "second"] "model") "STOP" 0)
           [] eq_refl several_has_inline_data_part).
Defined.

(** The refusal scenario, for a generation and for an edit. *)
Lemma no_image_part_gives_failure_witness :
  outcome (generateImage (platform with_key None file_ok (inr refusal))
                         "disallowed content" GEMINI_MODELS_FLASH)
    = inr (mkResult false (Some "I can't create that image.") None
             (Some "No image was generated. The model may have refused or encountered an issue.")
             GEMINI_MODELS_FLASH None) /\
  outcome (editImage (platform with_key (Some "gif") file_ok (inr refusal))
                     "disallowed content" "/tmp/in.gif" GEMINI_MODELS_FLASH)
    = inr (mkResult false (Some "I can't create that image.") None
             (Some "No edited image was generated. The model may have refused or encountered an issue.")
             GEMINI_MODELS_FLASH None).
Proof.
  split.
  - apply (proj1 (Extractor.no_image_part_gives_failure
             (platform with_key None file_ok (inr refusal))
             "disallowed content" "/tmp/in.gif" GEMINI_MODELS_FLASH refusal
             _ [] eq_refl refusal_has_no_inline_data_part)).
    apply scenario_generate_answered.
  - apply (proj1 (proj2 (Extractor.no_image_part_gives_failure
             (platform with_key (Some "gif") file_ok (inr refusal))
             "disallowed content" "/tmp/in.gif" GEMINI_MODELS_FLASH refusal
             _ [] eq_refl refusal_has_no_inline_data_part))).
    apply scenario_edit_answered.
Defined.

(** Testable properties 7 and 8 of the specification, by evaluation. *)
Example generation_success :
  generateImage_extract balloon GEMINI_MODELS_FLASH
  = mkResult true (Some "Here is your balloon") (Some png) None
             GEMINI_MODELS_FLASH (Some "STOP").
Proof. reflexivity. Qed.

Example last_write_wins :
  editImage_extract several GEMINI_MODELS_PRO
  = mkResult true (Some "second") (Some jpeg) None GEMINI_MODELS_PRO
             (Some "STOP").
Proof. reflexivity. Qed.

(** A single part that carries a caption and an image: the image is not
    used. *)
Lemma part_with_both_fields_is_text_witness :
  generateImage_extract (answer_of [mkPart (Some "A caption") (Some png)])
                        GEMINI_MODELS_FLASH
  = mkResult false (Some "A caption") None
      (Some "No image was generated. The model may have refused or encountered an issue.")
      GEMINI_MODELS_FLASH None.
Proof.
  exact (proj1
           (proj2 (proj2
              (proj2 (proj2 (proj2 (proj2 (proj2
                 (Extractor.part_with_both_fields_is_text
                    (mkResult true None None None GEMINI_MODELS_FLASH None)
                    "A caption" png)))))
                 [] [] "model" "STOP" 0 [] None None GEMINI_MODELS_FLASH
                 (List.Forall_nil _)))
              (List.Forall_nil _) (List.Forall_nil _))).
Defined.

End ExtractorScenarios.

(* ===================================================================== *)
(** ** The extension table *)
(* ===================================================================== *)

Module MimeTypes.
Import Types Constants Runtime GeminiClient Spec.

Lemma mimeTypes_lookup (ext : string) :
  mimeTypes !! ext =
  if decide (".png" = ext) then Some "image/png"
  else if decide (".jpg" = ext) then Some "image/jpeg"
  else if decide (".jpeg" = ext) then Some "image/jpeg"
  else if decide (".webp" = ext) then Some "image/webp"
  else if decide (".gif" = ext) then Some "image/gif"
  else None.
Proof.
  unfold mimeTypes. rewrite !lookup_insert, lookup_empty. reflexivity.
Qed.

Lemma getMimeTypeFromPath_lookup (pf : Platform) (filePath : string) :
  getMimeTypeFromPath pf filePath =
  let ext := Js.toLowerCase (extname pf filePath) in
  if decide (".png" = ext) then "image/png"
  else if decide (".jpg" = ext) then "image/jpeg"
  else if decide (".jpeg" = ext) then "image/jpeg"
  else if decide (".webp" = ext) then "image/webp"
  else if decide (".gif" = ext) then "image/gif"
  else "image/png".
Proof.
  unfold getMimeTypeFromPath. cbv zeta. rewrite mimeTypes_lookup.
  repeat case_decide; reflexivity.
Qed.

(** C9. [getMimeTypeFromPath] is defined on every path and looks only at
    the lower-cased extension: [.png] gives [image/png], [.jpg] and
    [.jpeg] give [image/jpeg], [.webp] gives [image/webp], [.gif] gives
    [image/gif], and every other extension, and a path without one, gives
    [image/png]. Paths whose extensions differ only in case get the same
    type. *)
Theorem extension_to_mime_total (pf : Platform) (filePath : string) :
  let ext := Js.toLowerCase (extname pf filePath) in
  let mime := getMimeTypeFromPath pf filePath in
  (ext = ".png" -> mime = "image/png") /\
  (ext = ".jpg" \/ ext = ".jpeg" -> mime = "image/jpeg") /\
  (ext = ".webp" -> mime = "image/webp") /\
  (ext = ".gif" -> mime = "image/gif") /\
  (ext ∉ known_extensions -> mime = "image/png") /\
  (path_extension pf filePath = None -> mime = "image/png") /\
  mime ∈ image_mime_types /\
  (forall (pf' : Platform) (filePath' : string),
     Js.toLowerCase (extname pf' filePath') = ext ->
     getMimeTypeFromPath pf' filePath' = mime).
Proof.
  intros ext mime. subst mime.
  rewrite getMimeTypeFromPath_lookup. cbv zeta. fold ext.
  repeat split.
  - intros ->. reflexivity.
  - intros [-> | ->]; reflexivity.
  - intros ->. reflexivity.
  - intros ->. reflexivity.
  - intros Hn. unfold known_extensions in Hn.
    rewrite !not_elem_of_cons in Hn.
    destruct Hn as (H1 & H2 & H3 & H4 & H5 & _).
    repeat case_decide; congruence.
  - intros Hnone. subst ext. unfold extname. rewrite Hnone. reflexivity.
  - unfold image_mime_types. repeat case_decide; set_solver.
  - intros pf' filePath' Heq.
    rewrite getMimeTypeFromPath_lookup. cbv zeta. rewrite Heq. reflexivity.
Qed.

(** An upper-case [.JPG]. *)
Lemma extension_to_mime_total_witness :
  getMimeTypeFromPath
    (Scenario.platform Scenario.without_key (Some "JPG") Scenario.file_ok
                       (inr Scenario.balloon)) "/tmp/photo.JPG"
  = "image/jpeg".
Proof.
  exact (proj1 (proj2 (extension_to_mime_total
                         (Scenario.platform Scenario.without_key (Some "JPG")
                            Scenario.file_ok (inr Scenario.balloon))
                         "/tmp/photo.JPG"))
               (or_introl eq_refl)).
Defined.

(** Upper-case and mixed-case extensions, an unknown one and none. *)
Example extension_examples :
  let at_ext := fun e =>
    getMimeTypeFromPath
      (Scenario.platform Scenario.without_key e Scenario.file_ok
                         (inr Scenario.balloon)) "/tmp/in" in
  at_ext (Some "PNG") = "image/png" /\
  at_ext (Some "Jpg") = "image/jpeg" /\
  at_ext (Some "JPEG") = "image/jpeg" /\
  at_ext (Some "WebP") = "image/webp" /\
  at_ext (Some "gIF") = "image/gif" /\
  at_ext (Some "bmp") = "image/png" /\
  at_ext None = "image/png".
Proof. vm_compute. repeat split. Qed.

End MimeTypes.

(* ===================================================================== *)
(** ** The error classifier *)
(* ===================================================================== *)

Module ErrorClassifier.
Import Types Constants Runtime GeminiClient Spec.

Lemma is_named_status_false (s : Z) :
  s <> 400 -> s <> 401 -> s <> 403 -> s <> 404 -> s <> 429 -> s <> 500 ->
  s <> 503 -> is_named_status s = false.
Proof.
  intros. unfold is_named_status, named_statuses.
  apply bool_decide_eq_false_2. rewrite !elem_of_cons, elem_of_nil. tauto.
Qed.

Lemma is_named_status_false_inv (s : Z) :
  is_named_status s = false ->
  s <> 400 /\ s <> 401 /\ s <> 403 /\ s <> 404 /\ s <> 429 /\ s <> 500 /\
  s <> 503.
Proof.
  unfold is_named_status, named_statuses. intros H.
  apply bool_decide_eq_false_1 in H.
  rewrite !elem_of_cons, elem_of_nil in H. tauto.
Qed.

(** Split on the [case] labels of the [switch], in source order. *)
Ltac switch_on status :=
  destruct (Z.eqb_spec status 400) as [-> | ?];
  [| destruct (Z.eqb_spec status 401) as [-> | ?];
     [| destruct (Z.eqb_spec status 403) as [-> | ?];
        [| destruct (Z.eqb_spec status 404) as [-> | ?];
           [| destruct (Z.eqb_spec status 429) as [-> | ?];
              [| destruct (Z.eqb_spec status 500) as [-> | ?];
                 [| destruct (Z.eqb_spec status 503) as [-> | ?]]]]]]].

Lemma handleApiError_default (status : Z) (upstream code : option string)
    (message : string) :
  is_named_status status = false ->
  handleApiError (http_failure status upstream code message) =
  "Error: API request failed with status " +:+
  Js.number_to_string status +:+ ". " +:+ Js.or_else upstream "".
Proof.
  intros H. apply is_named_status_false_inv in H.
  destruct H as (H1 & H2 & H3 & H4 & H5 & H6 & H7).
  unfold handleApiError, http_failure.
  cbn [Runtime.status data_error_message].
  cbv zeta.
  rewrite (proj2 (Z.eqb_neq _ _) H1), (proj2 (Z.eqb_neq _ _) H2),
          (proj2 (Z.eqb_neq _ _) H3), (proj2 (Z.eqb_neq _ _) H4),
          (proj2 (Z.eqb_neq _ _) H5), (proj2 (Z.eqb_neq _ _) H6),
          (proj2 (Z.eqb_neq _ _) H7).
  reflexivity.
Qed.

Lemma handleApiError_prefixed (e : Thrown) :
  exists s, handleApiError e = "Error: " +:+ s.
Proof.
  destruct e as [[[status upstream] |] code message | message | rendered].
  - unfold handleApiError. cbn [Runtime.status data_error_message]. cbv zeta.
    switch_on status; simpl; eexists; reflexivity.
  - unfold handleApiError. repeat case_decide; eexists; reflexivity.
  - eexists. reflexivity.
  - eexists. reflexivity.
Qed.

Lemma statuses_do_not_collapse (s1 s2 : Z) (u1 u2 c1 c2 : option string)
    (m1 m2 : string) :
  s1 <> s2 ->
  handleApiError (http_failure s1 u1 c1 m1)
    = handleApiError (http_failure s2 u2 c2 m2) ->
  is_named_status s1 = false /\ is_named_status s2 = false.
Proof.
  intros Hne Heq.
  unfold handleApiError, http_failure in Heq.
  cbn [Runtime.status data_error_message] in Heq. cbv zeta in Heq.
  switch_on s1; switch_on s2;
    try (exfalso; apply Hne; reflexivity);
    cbn [String.append] in Heq; try discriminate Heq.
  split; apply is_named_status_false; assumption.
Qed.

(** C5. [handleApiError] returns a string for every thrown value, and the
    string starts with "Error: ". For a failure that carries an HTTP
    response the string is chosen by the status: 400, 401, 403, 404, 429,
    500 and 503 have a message each (400 and 403 append the upstream
    message, or a hint when there is none), every other status gets the
    template with the status number and the upstream message. Two
    different statuses give the same string only if both fall under the
    template. *)
Theorem handleApiError_classification :
  (forall e : Thrown, exists s, handleApiError e = "Error: " +:+ s) /\
  (forall (status : Z) (upstream code : option string) (message : string),
     let e := http_failure status upstream code message in
     (status = 400 ->
      handleApiError e =
      "Error: Invalid request. " +:+
      Js.or_else upstream "Check your prompt and parameters.") /\
     (status = 401 ->
      handleApiError e =
      "Error: Invalid API key. Please check your GEMINI_API_KEY environment variable.") /\
     (status = 403 ->
      handleApiError e =
      "Error: Access denied. " +:+
      Js.or_else upstream "Your API key may not have access to this model.") /\
     (status = 404 ->
      handleApiError e =
      "Error: Model not found. Please check the model name.") /\
     (status = 429 ->
      handleApiError e =
      "Error: Rate limit exceeded. Please wait before making more requests.") /\
     (status = 500 ->
      handleApiError e =
      "Error: Gemini API server error. Please try again later.") /\
     (status = 503 ->
      handleApiError e =
      "Error: Gemini API service unavailable. Please try again later.") /\
     (is_named_status status = false ->
      handleApiError e =
      "Error: API request failed with status " +:+
      Js.number_to_string status +:+ ". " +:+ Js.or_else upstream "")) /\
  (forall (s1 s2 : Z) (u1 u2 c1 c2 : option string) (m1 m2 : string),
     s1 <> s2 ->
     handleApiError (http_failure s1 u1 c1 m1)
       = handleApiError (http_failure s2 u2 c2 m2) ->
     is_named_status s1 = false /\ is_named_status s2 = false).
Proof.
  split; [exact handleApiError_prefixed | split].
  - intros status upstream code message e. subst e.
    repeat split; try (intros ->; reflexivity).
    apply handleApiError_default.
  - exact statuses_do_not_collapse.
Qed.

(** Status 418 falls under the template. *)
Lemma handleApiError_classification_witness :
  handleApiError (http_failure 418 (Some "I'm a teapot") None
                               "Request failed with status code 418")
  = "Error: API request failed with status 418. I'm a teapot".
Proof.
  exact (proj2 (proj2 (proj2 (proj2 (proj2 (proj2 (proj2
           (proj1 (proj2 handleApiError_classification) 418
                  (Some "I'm a teapot") None
                  "Request failed with status code 418")))))))
           eq_refl).
Defined.

(** Testable property 10: a connection abort gives the timeout message. *)
Example timeout_message (message : string) :
  handleApiError (AxiosError None (Some "ECONNABORTED") message)
  = "Error: Request timed out. Image generation can take a while - please try again.".
Proof. reflexivity. Qed.

Example unreachable_message (message : string) :
  handleApiError (AxiosError None (Some "ENOTFOUND") message)
  = "Error: Unable to reach Gemini API. Please check your network connection.".
Proof. reflexivity. Qed.

Example other_failure_message :
  handleApiError (PlainError "ENOENT: no such file or directory")
  = "Error: ENOENT: no such file or directory".
Proof. reflexivity. Qed.

End ErrorClassifier.

(* ===================================================================== *)
(** ** The API key *)
(* ===================================================================== *)

Module Configuration.
Import Types Constants Runtime GeminiClient Spec Scenario ClientFacts.

(** Start-up does not look at the key beyond logging: [main] ends as
    connecting the transport ends. *)
Lemma main_starts (pf : Platform) :
  outcome (Server.main pf) = of_option_error (transport_connect pf) /\
  EvConnect ∈ trace (Server.main pf) /\
  no_network (Server.main pf).
Proof.
  unfold Server.main, server_connect.
  destruct (Js.falsy (process_env pf !! "GEMINI_API_KEY")),
           (transport_connect pf);
    (split; [reflexivity | split; [| reflexivity]]);
    simpl; set_solver.
Qed.

(** What [main] does when no key is configured: it writes the three lines
    of the warning, then connects the transport, and writes the running
    line if the connection was made. *)
Lemma main_without_key (pf : Platform) :
  key_missing pf ->
  trace (Server.main pf) =
  ([EvLog "WARNING: GEMINI_API_KEY environment variable is not set.";
    EvLog "Get your API key from https://aistudio.google.com/apikey";
    EvLog "The server will start but API calls will fail without a valid key.";
    EvConnect] ++
   match transport_connect pf with
   | None => [EvLog "Nanobanana MCP server running via stdio"]
   | Some _ => []
   end)%list.
Proof.
  unfold key_missing, Server.main, server_connect. intros ->.
  destruct (transport_connect pf); reflexivity.
Qed.

(** C6, as the code has it. With [GEMINI_API_KEY] unset or empty, every
    call of [generateImage], and every call of [editImage], ends before any
    network activity; the result is a failed [ImageGenerationResult] whose
    error names the variable (for [editImage], once the image file was
    read; a file that cannot be read is reported instead). The key is
    looked up by each call, inside [makeGeminiRequest], which throws the
    configuration error without sending anything.
    Start-up does not fail on the missing key: [main] writes the three
    lines of the warning and nothing else before it connects the
    transport, it ends as the connection attempt ends, and after a
    successful connection it writes the running line. *)
Theorem missing_key_fails_each_call (pf : Platform)
    (prompt imagePath model : string) :
  key_missing pf ->
  generateImage pf prompt model =
    ([], inr (mkResult false None None
                (Some "Error: GEMINI_API_KEY environment variable is required. Get your API key from https://aistudio.google.com/apikey")
                model None)) /\
  no_network (editImage pf prompt imagePath model) /\
  (forall buf : Buffer,
     fs_readFile pf imagePath = inr buf ->
     editImage pf prompt imagePath model =
       ([EvReadFile imagePath],
        inr (mkResult false None None
               (Some "Error: GEMINI_API_KEY environment variable is required. Get your API key from https://aistudio.google.com/apikey")
               model None))) /\
  outcome (Server.main pf) = of_option_error (transport_connect pf) /\
  EvConnect ∈ trace (Server.main pf) /\
  trace (Server.main pf) =
  ([EvLog "WARNING: GEMINI_API_KEY environment variable is not set.";
    EvLog "Get your API key from https://aistudio.google.com/apikey";
    EvLog "The server will start but API calls will fail without a valid key.";
    EvConnect] ++
   match transport_connect pf with
   | None => [EvLog "Nanobanana MCP server running via stdio"]
   | Some _ => []
   end)%list /\
  (forall request : GeminiRequest,
     makeGeminiRequest pf model request =
     ([], inl (PlainError "GEMINI_API_KEY environment variable is required. Get your API key from https://aistudio.google.com/apikey"))) /\
  (forall e : Thrown,
     fs_readFile pf imagePath = inl e ->
     editImage pf prompt imagePath model =
       ([EvReadFile imagePath],
        inr (mkResult false None None
               (Some ("Failed to read image file: " +:+ error_message e))
               model None))).
Proof.
  intros Hk. split; [| split; [| split]].
  - unfold generateImage. rewrite (makeGeminiRequest_missing _ _ _ Hk).
    reflexivity.
  - unfold no_network, editImage, readFile.
    destruct (fs_readFile pf imagePath) as [e | buf]; simpl; [reflexivity |].
    rewrite (makeGeminiRequest_missing _ _ _ Hk). reflexivity.
  - intros buf Hbuf. unfold editImage, readFile. rewrite Hbuf. simpl.
    rewrite (makeGeminiRequest_missing _ _ _ Hk). reflexivity.
  - destruct (main_starts pf) as (H1 & H2 & _).
    split; [exact H1 |]. split; [exact H2 |].
    split; [exact (main_without_key pf Hk) |]. split.
    + intros request. exact (makeGeminiRequest_missing pf model request Hk).
    + intros e He. unfold editImage, readFile. rewrite He. reflexivity.
Qed.

(** An empty environment: the refused call performs no action at all. *)
Lemma missing_key_fails_each_call_witness :
  generateImage (platform without_key None file_ok (inr balloon))
                "a red balloon" GEMINI_MODELS_FLASH =
    ([], inr (mkResult false None None
                (Some "Error: GEMINI_API_KEY environment variable is required. Get your API key from https://aistudio.google.com/apikey")
                GEMINI_MODELS_FLASH None)).
Proof.
  exact (proj1 (missing_key_fails_each_call
                  (platform without_key None file_ok (inr balloon))
                  "a red balloon" "/tmp/in.png" GEMINI_MODELS_FLASH
                  eq_refl)).
Defined.

(** C6 as stated fails: with no key configured nothing fails when the
    server is set up. [main] completes and connects the transport; the
    failure is the result of the individual call, and the same call on the
    same environment with the variable set goes to the network and
    succeeds. *)
Lemma key_absence_is_a_per_call_failure :
  key_missing (platform without_key None file_ok (inr balloon)) /\
  outcome (Server.main (platform without_key None file_ok (inr balloon)))
    = inr tt /\
  EvConnect ∈ trace (Server.main (platform without_key None file_ok (inr balloon))) /\
  outcome (generateImage (platform without_key None file_ok (inr balloon))
                         "a red balloon" GEMINI_MODELS_FLASH)
    = inr (mkResult false None None
             (Some "Error: GEMINI_API_KEY environment variable is required. Get your API key from https://aistudio.google.com/apikey")
             GEMINI_MODELS_FLASH None) /\
  outcome (generateImage (platform with_key None file_ok (inr balloon))
                         "a red balloon" GEMINI_MODELS_FLASH)
    = inr (mkResult true (Some "Here is your balloon") (Some png) None
                    GEMINI_MODELS_FLASH (Some "STOP")).
Proof.
  split; [reflexivity |]. split; [reflexivity |].
  split; [vm_compute; set_solver |]. split; reflexivity.
Qed.

End Configuration.

(* ===================================================================== *)
(** ** The tools: schemas and handlers *)
(* ===================================================================== *)

Module ToolContract.
Import Types Constants Runtime GeminiClient Schemas Server Spec Scenario
       ClientFacts.

Lemma z_string_undefined (key : string) (lo : Z) (lo_msg : string)
    (hi : option (Z * string)) :
  z_string key lo lo_msg hi None = inl [mkIssue (Some key) invalid_type].
Proof. reflexivity. Qed.

Lemma z_string_min_1 (key lo_msg : string) (v : option JVal) (s : string) :
  z_string key 1 lo_msg None v = inr s -> s <> "".
Proof.
  unfold z_string. destruct v as [[| | | s' |]|]; try discriminate.
  destruct s' as [|c s']; [simpl; discriminate |].
  destruct (Js.utf16_length (String c s') <? 1); simpl; [discriminate |].
  intros [= <-]. discriminate.
Qed.

Lemma GenerateImageSchema_output_path (raw : gmap string JVal)
    (params : GenerateImageInput) :
  GenerateImageSchema raw = inr params -> gi_output_path params <> "".
Proof.
  unfold GenerateImageSchema. cbv zeta.
  destruct (prompt_schema _) as [? | p]; [discriminate |].
  destruct (ModelSchema _ _) as [? | m]; [discriminate |].
  destruct (z_string "output_path" _ _ _ _) as [? | o] eqn:Ho; [discriminate |].
  destruct (strict _ _); [| discriminate].
  intros [= <-]. simpl. exact (z_string_min_1 _ _ _ _ Ho).
Qed.

(** The handler's report when it is given an output path: the image is
    written and the report is [{success, saved_to, mime_type, model, text}]. *)
Lemma generate_image_handler_saves (pf : Platform) (params : GenerateImageInput)
    (t : list Event) (r : ImageGenerationResult) (img : GeneratedImage) :
  gi_output_path params <> "" ->
  GeminiClient.generateImage pf (gi_prompt params) (gi_model params)
    = (t, inr r) ->
  success r = true -> image r = Some img ->
  fs_mkdir_recursive pf (path_dirname pf (gi_output_path params)) = None ->
  fs_writeFile pf (gi_output_path params) (buffer_from_base64 pf (data img))
    = None ->
  generate_image_handler pf params =
  ((t ++ [EvMkdir (path_dirname pf (gi_output_path params));
          EvWriteFile (gi_output_path params)
                      (buffer_from_base64 pf (data img))])%list,
   inr [("success", PBool true);
        ("saved_to", PStr (gi_output_path params));
        ("mime_type", PStr (mimeType img));
        ("model", PStr (model r));
        ("text", of_optional (text r))]).
Proof.
  intros Ho Hg Hs Hi Hm Hw.
  unfold generate_image_handler. rewrite Hg. unfold bind at 1.
  rewrite Hs, Hi.
  destruct (gi_output_path params) as [|c o] eqn:E; [congruence |].
  cbn [Js.falsy negb].
  unfold saveImageToFile, mkdir, writeFile, bind, try_catch, ret.
  rewrite Hm, Hw. reflexivity.
Qed.

(** No report of the generate tool holds the key [image_base64]. *)
Lemma generate_tool_never_inlines (pf : Platform) (raw : gmap string JVal)
    (payload : Payload) :
  outcome (call_generate_image pf raw) = inr (Reported payload) ->
  "image_base64" ∉ keys payload.
Proof.
  unfold call_generate_image.
  destruct (GenerateImageSchema raw) as [issues | params] eqn:Hp;
    [discriminate |].
  pose proof (GenerateImageSchema_output_path raw params Hp) as Ho.
  unfold generate_image_handler.
  destruct (GeminiClient.generateImage pf (gi_prompt params) (gi_model params))
    as [t [e | r]]; [discriminate |].
  unfold bind at 2.
  destruct (gi_output_path params) as [|c o] eqn:E; [congruence |].
  cbn [Js.falsy negb].
  destruct (success r), (image r) as [img |];
    unfold saveImageToFile, mkdir, writeFile, bind, try_catch, ret;
    try destruct (fs_mkdir_recursive pf _);
    try destruct (fs_writeFile pf _ _);
    simpl; intros [= <-]; simpl;
    rewrite !not_elem_of_cons; repeat split; try discriminate;
    apply not_elem_of_nil.
Qed.

(** C8, as the code has it: [output_path] is a required field of both
    schemas. A call that omits it is rejected by validation, so the
    handler does not run, and no report of the generate tool carries
    [image_base64]. *)
Theorem output_path_is_required (pf : Platform) (raw : gmap string JVal) :
  raw !! "output_path" = None ->
  (exists issues,
     GenerateImageSchema raw = inl issues /\
     mkIssue (Some "output_path") invalid_type ∈ issues /\
     call_generate_image pf raw = ret (Rejected issues)) /\
  (exists issues,
     EditImageSchema raw = inl issues /\
     mkIssue (Some "output_path") invalid_type ∈ issues) /\
  (forall (raw' : gmap string JVal) (payload : Payload),
     outcome (call_generate_image pf raw') = inr (Reported payload) ->
     "image_base64" ∉ keys payload).
Proof.
  intros Hnone. split; [| split].
  - unfold call_generate_image, GenerateImageSchema. cbv zeta.
    rewrite Hnone, z_string_undefined.
    destruct (prompt_schema _), (ModelSchema _ _), (strict _ _);
      eexists; (split; [reflexivity | split; [| reflexivity]]);
      simpl; set_solver.
  - unfold EditImageSchema. cbv zeta.
    rewrite Hnone, z_string_undefined.
    destruct (prompt_schema _), (z_string "image_path" _ _ _ _),
             (ModelSchema _ _), (strict _ _);
      eexists; (split; [reflexivity |]); simpl; set_solver.
  - intros raw' payload. apply generate_tool_never_inlines.
Qed.

Lemma prompt_only_omits_output_path :
  ({["prompt" := JStr "a red balloon"]} : gmap string JVal) !! "output_path"
  = None.
Proof. apply lookup_singleton_ne. discriminate. Qed.

(** A call with only a prompt is turned away before [generateImage] runs. *)
Lemma output_path_is_required_witness :
  call_generate_image (platform with_key None file_ok (inr balloon))
                      {["prompt" := JStr "a red balloon"]}
  = ret (Rejected [mkIssue (Some "output_path") invalid_type]).
Proof.
  destruct (output_path_is_required
              (platform with_key None file_ok (inr balloon))
              {["prompt" := JStr "a red balloon"]}
              prompt_only_omits_output_path)
    as [(issues & Hparse & _ & Hcall) _].
  rewrite Hcall. vm_compute in Hparse.
  injection Hparse as <-. reflexivity.
Defined.

(** C7, as the code has it. [editImage] has three parameters, the prompt,
    a file path and the model: it reads the image from the file system and
    sends the file's bytes in base64 with the MIME type of the path's
    extension. The handler of [nanobanana_edit_image] calls it with four
    arguments, of which [params.image_base64] and [params.image_mime_type]
    are not fields of the validated input: the call binds [imagePath] and
    [model] to [undefined] and drops the model. *)
Theorem editImage_takes_a_path :
  (forall (pf : Platform) (prompt imagePath model : string) (buf : Buffer)
          (k : string),
     fs_readFile pf imagePath = inr buf ->
     process_env pf !! "GEMINI_API_KEY" = Some k -> k <> "" ->
     trace (editImage pf prompt imagePath model) =
     [EvReadFile imagePath;
      EvPost (request_url model)
             (edit_request prompt (getMimeTypeFromPath pf imagePath)
                           (buffer_to_base64 pf buf))
             (request_config k)]) /\
  (forall params : EditImageInput,
     bind_arguments editImage_parameters (edit_image_call_arguments params) =
     [("prompt", Some (ei_prompt params));
      ("imagePath", None);
      ("model", None)]).
Proof.
  split.
  - intros pf prompt imagePath model buf k Hbuf Hk Hne.
    unfold editImage, readFile. rewrite Hbuf. simpl.
    unfold makeGeminiRequest. rewrite (getApiKey_present pf k Hk Hne).
    unfold bind, ret, try_catch, axios_post.
    destruct (http_post pf _ _ _) as [e | response]; reflexivity.
  - intros params. reflexivity.
Qed.

Lemma with_key_lookup :
  process_env (platform with_key (Some "png") file_ok (inr balloon))
    !! "GEMINI_API_KEY" = Some "k-123".
Proof. apply lookup_singleton_eq. Qed.

(** [editImage] on a readable file: one read, then one POST that carries
    the file's bytes. *)
Lemma editImage_takes_a_path_witness :
  trace (editImage (platform with_key (Some "png") file_ok (inr balloon))
                   "make it blue" "/tmp/cat.png" GEMINI_MODELS_FLASH) =
  [EvReadFile "/tmp/cat.png";
   EvPost (request_url GEMINI_MODELS_FLASH)
          (edit_request "make it blue" "image/png" "aGk=")
          (request_config "k-123")].
Proof.
  refine (proj1 editImage_takes_a_path
            (platform with_key (Some "png") file_ok (inr balloon))
            "make it blue" "/tmp/cat.png" GEMINI_MODELS_FLASH
            [Byte.x68; Byte.x69] "k-123" eq_refl with_key_lookup _).
  discriminate.
Defined.

(** A valid edit call: its image path does not reach [editImage]. *)
Example edit_call_of_valid_input :
  EditImageSchema {["prompt" := JStr "make it blue";
                    "image_path" := JStr "/tmp/cat.png";
                    "output_path" := JStr "/tmp/out.png"]}
  = inr (mkEditImageInput "make it blue" "/tmp/cat.png" GEMINI_MODELS_FLASH
                          "/tmp/out.png") /\
  edit_image_call_arguments
    (mkEditImageInput "make it blue" "/tmp/cat.png" GEMINI_MODELS_FLASH
                      "/tmp/out.png")
  = [Some "make it blue"; None; None; Some GEMINI_MODELS_FLASH].
Proof. split; vm_compute; reflexivity. Qed.

End ToolContract.

(* ===================================================================== *)
(** ** The transport: one request per call *)
(* ===================================================================== *)

Module Transport.
Import Types Constants Runtime GeminiClient Spec Vocabulary Scenario
       ClientFacts.

(** With a key configured, [makeGeminiRequest] issues exactly one POST to
    [<base>/models/<model>:generateContent], with the JSON content type,
    the key as the query parameter [key] and a timeout of 60000 ms, and
    hands back what the HTTP client gave, answer or failure, unchanged. *)
Theorem makeGeminiRequest_posts_once (pf : Platform) (model : string)
    (request : GeminiRequest) (k : string) :
  process_env pf !! "GEMINI_API_KEY" = Some k -> k <> "" ->
  let url :=
    "https://generativelanguage.googleapis.com/v1beta/models/" +:+ model
    +:+ ":generateContent" in
  let config :=
    mkAxiosConfig [("Content-Type", "application/json")] [("key", k)] 60000 in
  makeGeminiRequest pf model request =
  ([EvPost url request config], http_post pf url request config).
Proof.
  intros Hk Hne. cbv zeta.
  unfold makeGeminiRequest. rewrite (getApiKey_present pf k Hk Hne).
  unfold bind, ret, try_catch, axios_post, request_url, request_config,
    API_BASE_URL, API_TIMEOUT, throw.
  cbn [String.append].
  destruct (http_post pf _ _ _) as [e | response]; reflexivity.
Qed.

Lemma makeGeminiRequest_posts_once_witness :
  makeGeminiRequest (platform with_key None file_ok (inr balloon))
                    GEMINI_MODELS_PRO (generate_request "a red balloon") =
  ([EvPost
      "https://generativelanguage.googleapis.com/v1beta/models/gemini-2.0-flash-exp:generateContent"
      (generate_request "a red balloon")
      (mkAxiosConfig [("Content-Type", "application/json")]
                     [("key", "k-123")] 60000)],
   inr balloon).
Proof.
  refine (makeGeminiRequest_posts_once
            (platform with_key None file_ok (inr balloon))
            GEMINI_MODELS_PRO (generate_request "a red balloon") "k-123"
            (lookup_singleton_eq _ _) _).
  discriminate.
Defined.

Lemma makeGeminiRequest_trace (pf : Platform) (model : string)
    (request : GeminiRequest) :
  trace (makeGeminiRequest pf model request) = post_of pf model request.
Proof.
  unfold post_of.
  destruct (process_env pf !! "GEMINI_API_KEY") as [k |] eqn:Hk.
  - destruct (decide (k = "")) as [-> | Hne].
    + rewrite makeGeminiRequest_missing; [reflexivity |].
      unfold key_missing. rewrite Hk. reflexivity.
    + unfold makeGeminiRequest. rewrite (getApiKey_present pf k Hk Hne).
      unfold bind, ret, try_catch, axios_post.
      destruct (http_post pf _ _ _); reflexivity.
  - rewrite makeGeminiRequest_missing; [reflexivity |].
    unfold key_missing. rewrite Hk. reflexivity.
Qed.

Lemma generateImage_trace (pf : Platform) (prompt model : string) :
  trace (generateImage pf prompt model)
  = post_of pf model (generate_request prompt).
Proof.
  rewrite <- makeGeminiRequest_trace.
  unfold generateImage, try_catch, bind.
  destruct (makeGeminiRequest pf model _) as [t [e | response]]; simpl;
    rewrite app_nil_r; reflexivity.
Qed.

(** Each call is a single attempt. [generateImage] performs one POST, or
    none when no key is configured, and nothing else: no retry after a
    failure, no file access. [editImage] reads the given file once, first;
    it goes on to one POST only if the read succeeded and a key is
    configured, and it never writes. *)
Theorem calls_are_single_shot (pf : Platform) (prompt imagePath model : string) :
  trace (generateImage pf prompt model)
    = post_of pf model (generate_request prompt) /\
  trace (editImage pf prompt imagePath model)
    = EvReadFile imagePath ::
      match fs_readFile pf imagePath with
      | inl _ => []
      | inr buf =>
          post_of pf model
            (edit_request prompt (getMimeTypeFromPath pf imagePath)
                          (buffer_to_base64 pf buf))
      end.
Proof.
  split.
  - apply generateImage_trace.
  - unfold editImage, readFile, try_catch, bind.
    destruct (fs_readFile pf imagePath) as [e | buf]; simpl; [reflexivity |].
    rewrite <- makeGeminiRequest_trace.
    destruct (makeGeminiRequest pf model _) as [t [e | response]]; simpl;
      rewrite app_nil_r; reflexivity.
Qed.

(** A file that cannot be read ends [editImage] at once: the result is a
    failure whose error is "Failed to read image file: " followed by the
    failure's own message, without the classifier's "Error: " prefix; the
    key is not looked at and nothing is sent. *)
Theorem editImage_unreadable_file (pf : Platform)
    (prompt imagePath model : string) (e : Thrown) :
  fs_readFile pf imagePath = inl e ->
  editImage pf prompt imagePath model =
  ([EvReadFile imagePath],
   inr (mkResult false None None
          (Some ("Failed to read image file: " +:+ error_message e))
          model None)).
Proof.
  intros He. unfold editImage, readFile. rewrite He. reflexivity.
Qed.

Lemma editImage_unreadable_file_witness :
  editImage (platform without_key (Some "png")
                      (inl (PlainError "ENOENT: no such file or directory"))
                      (inr balloon))
            "make it blue" "/tmp/missing.png" GEMINI_MODELS_FLASH =
  ([EvReadFile "/tmp/missing.png"],
   inr (mkResult false None None
          (Some "Failed to read image file: ENOENT: no such file or directory")
          GEMINI_MODELS_FLASH None)).
Proof.
  exact (editImage_unreadable_file
           (platform without_key (Some "png")
                     (inl (PlainError "ENOENT: no such file or directory"))
                     (inr balloon))
           "make it blue" "/tmp/missing.png" GEMINI_MODELS_FLASH
           (PlainError "ENOENT: no such file or directory") eq_refl).
Defined.

(** A failure of the HTTP client becomes a failed result whose error is
    the classifier's message for it; text, image and finish reason are
    unset. This holds for [generateImage], and for [editImage] once the
    file was read. *)
Theorem transport_failure_is_classified (pf : Platform)
    (prompt imagePath model : string) (k : string) (e : Thrown) :
  process_env pf !! "GEMINI_API_KEY" = Some k -> k <> "" ->
  (http_post pf (request_url model) (generate_request prompt)
             (request_config k) = inl e ->
   outcome (generateImage pf prompt model) =
   inr (mkResult false None None (Some (handleApiError e)) model None)) /\
  (forall buf : Buffer,
     fs_readFile pf imagePath = inr buf ->
     http_post pf (request_url model)
               (edit_request prompt (getMimeTypeFromPath pf imagePath)
                             (buffer_to_base64 pf buf))
               (request_config k) = inl e ->
     outcome (editImage pf prompt imagePath model) =
     inr (mkResult false None None (Some (handleApiError e)) model None)).
Proof.
  intros Hk Hne. split.
  - intros Hpost. unfold generateImage, makeGeminiRequest.
    rewrite (getApiKey_present pf k Hk Hne).
    unfold bind, ret, try_catch, axios_post. rewrite Hpost. reflexivity.
  - intros buf Hbuf Hpost. unfold editImage, readFile. rewrite Hbuf. simpl.
    unfold makeGeminiRequest. rewrite (getApiKey_present pf k Hk Hne).
    unfold bind, ret, try_catch, axios_post. rewrite Hpost. reflexivity.
Qed.

(** The upstream answers 429. *)
Lemma transport_failure_is_classified_witness :
  outcome (generateImage
             (platform with_key None file_ok
                (inl (http_failure 429 (Some "quota") None
                                   "Request failed with status code 429")))
             "a red balloon" GEMINI_MODELS_FLASH) =
  inr (mkResult false None None
         (Some "Error: Rate limit exceeded. Please wait before making more requests.")
         GEMINI_MODELS_FLASH None).
Proof.
  refine (proj1 (transport_failure_is_classified
            (platform with_key None file_ok
               (inl (http_failure 429 (Some "quota") None
                                  "Request failed with status code 429")))
            "a red balloon" "/tmp/in.png" GEMINI_MODELS_FLASH "k-123"
            (http_failure 429 (Some "quota") None
                          "Request failed with status code 429")
            (lookup_singleton_eq _ _) _) eq_refl).
  discriminate.
Defined.

End Transport.

(* ===================================================================== *)
(** ** The classifier: order of the tests, and the status in the message *)
(* ===================================================================== *)

Module ClassifierOrder.
Import Types Constants Runtime GeminiClient Spec Vocabulary ErrorClassifier.

(** The tests of [handleApiError] in their order. A failure that carries
    a response is classified by the response alone: its [code] and its own
    message play no part. Without a response, the code [ECONNABORTED]
    gives the timeout message and [ENOTFOUND] the network message; every
    other failure, from the HTTP client or not, gives "Error: " followed
    by its own message. *)
Theorem handleApiError_order :
  (forall (response : AxiosResponse) (code code' : option string)
          (message message' : string),
     handleApiError (AxiosError (Some response) code message)
       = handleApiError (AxiosError (Some response) code' message')) /\
  (forall message : string,
     handleApiError (AxiosError None (Some "ECONNABORTED") message) =
     "Error: Request timed out. Image generation can take a while - please try again.") /\
  (forall message : string,
     handleApiError (AxiosError None (Some "ENOTFOUND") message) =
     "Error: Unable to reach Gemini API. Please check your network connection.") /\
  (forall (code : option string) (message : string),
     code <> Some "ECONNABORTED" -> code <> Some "ENOTFOUND" ->
     handleApiError (AxiosError None code message) = "Error: " +:+ message) /\
  (forall e : Thrown,
     (forall response code message, e <> AxiosError response code message) ->
     handleApiError e = "Error: " +:+ error_message e).
Proof.
  split; [| split; [| split; [| split]]].
  - intros [status upstream] code code' message message'. reflexivity.
  - reflexivity.
  - reflexivity.
  - intros code message H1 H2. unfold handleApiError.
    repeat case_decide; try contradiction. reflexivity.
  - intros [response code message | message | rendered] H;
      [exfalso; exact (H _ _ _ eq_refl) | reflexivity | reflexivity].
Qed.

(** A DNS failure that somehow carries a 404 response is a 404; a reset
    connection is reported with its own message. *)
Lemma handleApiError_order_witness :
  handleApiError (AxiosError (Some (mkAxiosResponse 404 None))
                             (Some "ENOTFOUND") "getaddrinfo ENOTFOUND")
    = "Error: Model not found. Please check the model name." /\
  handleApiError (AxiosError None (Some "ECONNRESET") "socket hang up")
    = "Error: socket hang up".
Proof.
  split.
  - rewrite (proj1 handleApiError_order (mkAxiosResponse 404 None)
               (Some "ENOTFOUND") None "getaddrinfo ENOTFOUND" "").
    reflexivity.
  - apply (proj1 (proj2 (proj2 (proj2 handleApiError_order))));
      discriminate.
Defined.

Lemma append_inv_head (p a b : string) : p +:+ a = p +:+ b -> a = b.
Proof.
  induction p as [| c p IH]; simpl; [auto |].
  intros [= H]. auto.
Qed.

Lemma dotless_cons (c : ascii) (s : string) :
  dotless (String c s) = true -> c <> "."%char /\ dotless s = true.
Proof.
  simpl. intros H. apply andb_prop in H as [Hc Hs]. split; [| exact Hs].
  intros ->. discriminate.
Qed.

(** Two dot-free strings that are followed by a dot are equal as soon as
    the whole strings are. *)
Lemma dotless_before_dot (a b x y : string) :
  dotless a = true -> dotless b = true ->
  a +:+ String "." x = b +:+ String "." y -> a = b.
Proof.
  revert b. induction a as [| c a IH]; intros [| d b] Ha Hb; simpl.
  - reflexivity.
  - intros [= <- _]. apply dotless_cons in Hb as [Hd _]. congruence.
  - intros [= -> _]. apply dotless_cons in Ha as [Hc _]. congruence.
  - intros [= <- H].
    apply dotless_cons in Ha as [_ Ha]. apply dotless_cons in Hb as [_ Hb].
    f_equal. exact (IH b Ha Hb H).
Qed.

Lemma pretty_N_go_dotless (x : N) (s : string) :
  dotless s = true -> dotless (pretty_N_go x s) = true.
Proof.
  revert s. induction (N.lt_wf_0 x) as [x _ IH]; intros s Hs.
  assert (x = 0 \/ 0 < x)%N as [-> | Hpos] by lia.
  - rewrite pretty_N_go_0. exact Hs.
  - rewrite pretty_N_go_step by exact Hpos.
    apply IH; [apply N.div_lt; lia |].
    simpl. rewrite Hs, andb_true_r.
    unfold pretty_N_char. repeat case_match; reflexivity.
Qed.

Lemma number_to_string_dotless (n : Z) :
  dotless (Js.number_to_string n) = true.
Proof.
  unfold Js.number_to_string, pretty, pretty_Z.
  destruct n as [| p | p]; [reflexivity | |].
  - unfold pretty, pretty_positive, pretty, pretty_N.
    case_decide; [reflexivity | apply pretty_N_go_dotless; reflexivity].
  - change (dotless (String "-" (pretty p)) = true). simpl.
    unfold pretty, pretty_positive, pretty, pretty_N.
    case_decide; [reflexivity | apply pretty_N_go_dotless; reflexivity].
Qed.

(** The status can be read back from the message: failures that carry
    responses with different statuses never get the same string, whatever
    the upstream messages are, also when both statuses fall under the
    default template. *)
Theorem status_determines_message (s1 s2 : Z) (u1 u2 c1 c2 : option string)
    (m1 m2 : string) :
  s1 <> s2 ->
  handleApiError (http_failure s1 u1 c1 m1)
    <> handleApiError (http_failure s2 u2 c2 m2).
Proof.
  intros Hne Heq.
  destruct (statuses_do_not_collapse s1 s2 u1 u2 c1 c2 m1 m2 Hne Heq)
    as [H1 H2].
  rewrite (handleApiError_default s1 u1 c1 m1 H1),
          (handleApiError_default s2 u2 c2 m2 H2) in Heq.
  apply append_inv_head in Heq.
  apply Hne. apply (inj Js.number_to_string).
  exact (dotless_before_dot _ _ _ _ (number_to_string_dotless s1)
                            (number_to_string_dotless s2) Heq).
Qed.

(** 41 with the message "8. x" against 418 with the message "x". *)
Lemma status_determines_message_witness :
  handleApiError (http_failure 41 (Some "8. x") None "")
    <> handleApiError (http_failure 418 (Some "x") None "").
Proof.
  apply (status_determines_message 41 418). discriminate.
Defined.

End ClassifierOrder.

(* ===================================================================== *)
(** ** The shape of a result *)
(* ===================================================================== *)

Module ResultShape.
Import Types Constants Runtime GeminiClient Spec Vocabulary Scenario
       ExtractorFacts ClientFacts ErrorClassifier.

Lemma result_shape_failed (t : option string) (msg m : string) :
  msg <> "" -> result_shape m (mkResult false t None (Some msg) m None).
Proof.
  intros Hmsg. split; [reflexivity | split]; simpl.
  - discriminate.
  - intros _. split; [eauto | split; reflexivity].
Qed.

Lemma result_shape_classified (e : Thrown) (m : string) :
  result_shape m (mkResult false None None (Some (handleApiError e)) m None).
Proof.
  apply result_shape_failed.
  destruct (handleApiError_prefixed e) as [s ->]. discriminate.
Qed.

Lemma result_shape_generateImage_extract (response : GeminiResponse)
    (m : string) :
  result_shape m (generateImage_extract response m).
Proof.
  destruct (candidates response) as [[| c rest] |] eqn:Hc.
  - destruct (extract_no_candidates response m (or_intror Hc)) as [-> _].
    apply result_shape_failed. discriminate.
  - rewrite (generateImage_extract_candidate _ _ _ _ Hc).
    destruct (last_inline_data _) as [d |];
      [| apply result_shape_failed; discriminate].
    split; [reflexivity | split]; simpl; [eauto | discriminate].
  - destruct (extract_no_candidates response m (or_introl Hc)) as [-> _].
    apply result_shape_failed. discriminate.
Qed.

Lemma result_shape_editImage_extract (response : GeminiResponse) (m : string) :
  result_shape m (editImage_extract response m).
Proof.
  destruct (candidates response) as [[| c rest] |] eqn:Hc.
  - destruct (extract_no_candidates response m (or_intror Hc)) as [_ ->].
    apply result_shape_failed. discriminate.
  - rewrite (editImage_extract_candidate _ _ _ _ Hc).
    destruct (last_inline_data _) as [d |];
      [| apply result_shape_failed; discriminate].
    split; [reflexivity | split]; simpl; [eauto | discriminate].
  - destruct (extract_no_candidates response m (or_introl Hc)) as [_ ->].
    apply result_shape_failed. discriminate.
Qed.

Lemma generateImage_shape (pf : Platform) (prompt model : string) :
  exists r, outcome (generateImage pf prompt model) = inr r /\
            result_shape model r.
Proof.
  unfold generateImage, try_catch, bind.
  destruct (makeGeminiRequest pf model (generate_request prompt))
    as [t [e | response]]; simpl; eexists; (split; [reflexivity |]).
  - apply result_shape_classified.
  - apply result_shape_generateImage_extract.
Qed.

Lemma editImage_shape (pf : Platform) (prompt imagePath model : string) :
  exists r, outcome (editImage pf prompt imagePath model) = inr r /\
            result_shape model r.
Proof.
  unfold editImage, readFile, try_catch, bind.
  destruct (fs_readFile pf imagePath) as [e | buf]; simpl.
  - eexists; split; [reflexivity |].
    apply result_shape_failed. discriminate.
  - destruct (makeGeminiRequest pf model _) as [t [e | response]]; simpl;
      eexists; (split; [reflexivity |]).
    + apply result_shape_classified.
    + apply result_shape_editImage_extract.
Qed.

(** Every result of [generateImage] and of [editImage] names the model it
    was asked for. A success has an image and the finish reason and no
    error. A failure has an error, which is never the empty string, and
    neither an image nor a finish reason: the finish reason of a candidate
    that brought no image is dropped. *)
Theorem results_are_well_shaped (pf : Platform)
    (prompt imagePath model : string) :
  (exists r,
     outcome (generateImage pf prompt model) = inr r /\
     Types.model r = model /\
     (success r = true ->
      is_Some (image r) /\ is_Some (finishReason r) /\ error r = None) /\
     (success r = false ->
      (exists msg, error r = Some msg /\ msg <> "") /\
      image r = None /\ finishReason r = None)) /\
  (exists r,
     outcome (editImage pf prompt imagePath model) = inr r /\
     Types.model r = model /\
     (success r = true ->
      is_Some (image r) /\ is_Some (finishReason r) /\ error r = None) /\
     (success r = false ->
      (exists msg, error r = Some msg /\ msg <> "") /\
      image r = None /\ finishReason r = None)).
Proof.
  split.
  - destruct (generateImage_shape pf prompt model) as (r & Hr & Hs).
    exists r. split; [exact Hr | exact Hs].
  - destruct (editImage_shape pf prompt imagePath model) as (r & Hr & Hs).
    exists r. split; [exact Hr | exact Hs].
Qed.

Lemma omap_part_text_cons (p : GeminiPart) (ps : list GeminiPart) :
  omap part_text (p :: ps) =
  match part_text p with
  | Some t => t :: omap part_text ps
  | None => omap part_text ps
  end.
Proof. reflexivity. Qed.

Lemma extract_by_last (ps ps' : list GeminiPart) (role role' reason : string)
    (idx idx' : Z) (rest rest' : list GeminiCandidate)
    (usage usage' : option UsageMetadata) (version version' : option string)
    (m : string) :
  last_text ps = last_text ps' ->
  last_inline_data ps = last_inline_data ps' ->
  generateImage_extract
    (response_with_parts ps role reason idx rest usage version) m
  = generateImage_extract
      (response_with_parts ps' role' reason idx' rest' usage' version') m /\
  editImage_extract
    (response_with_parts ps role reason idx rest usage version) m
  = editImage_extract
      (response_with_parts ps' role' reason idx' rest' usage' version') m.
Proof.
  intros Ht Hi. unfold response_with_parts. split.
  - erewrite !generateImage_extract_candidate by reflexivity.
    simpl. rewrite Ht, Hi. reflexivity.
  - erewrite !editImage_extract_candidate by reflexivity.
    simpl. rewrite Ht, Hi. reflexivity.
Qed.

(** The scan keeps two independent slots, and only the first candidate's
    parts and finish reason count. For [generateImage] and [editImage]
    alike: two part lists with the same texts in the same order and the
    same inline data in the same order extract to the same result,
    whatever the role, the index, the other candidates and the usage data
    are; so a part that has neither [text] nor [inlineData] can be put in
    or taken out anywhere, and a part with text and a neighbour without
    text can be exchanged anywhere. *)
Theorem text_and_image_slots_are_independent (m : string) :
  (forall (ps ps' : list GeminiPart) (role role' reason : string)
          (idx idx' : Z) (rest rest' : list GeminiCandidate)
          (usage usage' : option UsageMetadata)
          (version version' : option string),
     omap part_text ps = omap part_text ps' ->
     omap inline_data_of ps = omap inline_data_of ps' ->
     generateImage_extract
       (response_with_parts ps role reason idx rest usage version) m
     = generateImage_extract
         (response_with_parts ps' role' reason idx' rest' usage' version') m /\
     editImage_extract
       (response_with_parts ps role reason idx rest usage version) m
     = editImage_extract
         (response_with_parts ps' role' reason idx' rest' usage' version') m) /\
  (forall (ps : list GeminiPart) (role role' reason : string)
          (idx idx' : Z) (rest rest' : list GeminiCandidate)
          (usage usage' : option UsageMetadata)
          (version version' : option string),
     generateImage_extract
       (response_with_parts ps role reason idx rest usage version) m
     = generateImage_extract
         (response_with_parts ps role' reason idx' rest' usage' version') m /\
     editImage_extract
       (response_with_parts ps role reason idx rest usage version) m
     = editImage_extract
         (response_with_parts ps role' reason idx' rest' usage' version') m) /\
  (forall (before after : list GeminiPart) (role reason : string) (idx : Z)
          (rest : list GeminiCandidate) (usage : option UsageMetadata)
          (version : option string),
     generateImage_extract
       (response_with_parts (before ++ mkPart None None :: after)
                            role reason idx rest usage version) m
     = generateImage_extract
         (response_with_parts (before ++ after)
                              role reason idx rest usage version) m /\
     editImage_extract
       (response_with_parts (before ++ mkPart None None :: after)
                            role reason idx rest usage version) m
     = editImage_extract
         (response_with_parts (before ++ after)
                              role reason idx rest usage version) m) /\
  (forall (before after : list GeminiPart) (a b : GeminiPart)
          (role reason : string) (idx : Z)
          (rest : list GeminiCandidate) (usage : option UsageMetadata)
          (version : option string),
     is_text_part a = true -> part_text b = None ->
     generateImage_extract
       (response_with_parts (before ++ b :: a :: after)
                            role reason idx rest usage version) m
     = generateImage_extract
         (response_with_parts (before ++ a :: b :: after)
                              role reason idx rest usage version) m /\
     editImage_extract
       (response_with_parts (before ++ b :: a :: after)
                            role reason idx rest usage version) m
     = editImage_extract
         (response_with_parts (before ++ a :: b :: after)
                              role reason idx rest usage version) m).
Proof.
  assert (General :
    forall (ps ps' : list GeminiPart) (role role' reason : string)
           (idx idx' : Z) (rest rest' : list GeminiCandidate)
           (usage usage' : option UsageMetadata)
           (version version' : option string),
      omap part_text ps = omap part_text ps' ->
      omap inline_data_of ps = omap inline_data_of ps' ->
      generateImage_extract
        (response_with_parts ps role reason idx rest usage version) m
      = generateImage_extract
          (response_with_parts ps' role' reason idx' rest' usage' version') m /\
      editImage_extract
        (response_with_parts ps role reason idx rest usage version) m
      = editImage_extract
          (response_with_parts ps' role' reason idx' rest' usage' version') m).
  { intros ps ps' role role' reason idx idx' rest rest' usage usage'
           version version' Ht Hi.
    apply extract_by_last.
    - unfold last_text. rewrite Ht. reflexivity.
    - unfold last_inline_data. rewrite Hi. reflexivity. }
  split; [exact General |]. split; [| split].
  - intros ps role role' reason idx idx' rest rest' usage usage'
           version version'.
    apply General; reflexivity.
  - intros before after role reason idx rest usage version.
    apply General; rewrite !omap_app; reflexivity.
  - intros before after a b role reason idx rest usage version Ha Hb.
    unfold is_text_part in Ha. apply bool_decide_eq_true in Ha as [t Ht].
    assert (Hia : inline_data_of a = None)
      by exact (inline_data_of_text a t Ht).
    apply General.
    + rewrite !omap_app, !omap_part_text_cons, Ht, Hb. reflexivity.
    + rewrite !omap_app, !omap_inline_data_of_cons, Hia.
      destruct (inline_data_of b); reflexivity.
Qed.

(** Image first or text first: the same result. *)
Lemma text_and_image_slots_are_independent_witness :
  generateImage_extract
    (response_with_parts [inlineDataPart png; textPart "Here is your balloon"]
                         "model" "STOP" 0 [] None None) GEMINI_MODELS_FLASH
  = generateImage_extract
      (response_with_parts [textPart "Here is your balloon"; inlineDataPart png]
                           "model" "STOP" 0 [] None None) GEMINI_MODELS_FLASH.
Proof.
  exact (proj1 (proj2 (proj2 (proj2
           (text_and_image_slots_are_independent GEMINI_MODELS_FLASH)))
           [] [] (textPart "Here is your balloon") (inlineDataPart png)
           "model" "STOP" 0 [] None None eq_refl eq_refl)).
Defined.

End ResultShape.

(* ===================================================================== *)
(** ** What the input schemas accept *)
(* ===================================================================== *)

Module SchemaFacts.
Import Types Constants Runtime Schemas Server Tools Vocabulary.

Lemma z_string_accepts (key : string) (lo : Z) (lo_msg : string)
    (hi : option (Z * string)) (v : option JVal) (s : string) :
  z_string key lo lo_msg hi v = inr s <->
  v = Some (JStr s) /\ lo <= Js.utf16_length s /\
  match hi with
  | Some (n, _) => Js.utf16_length s <= n
  | None => True
  end.
Proof.
  unfold z_string. split.
  - destruct v as [[| | | s' |] |]; try discriminate.
    destruct (Z.ltb_spec (Js.utf16_length s') lo) as [Hlo | Hlo];
      [destruct hi as [[n msg] |]; [destruct (n <? _) |]; discriminate |].
    destruct hi as [[n msg] |].
    + destruct (Z.ltb_spec n (Js.utf16_length s')) as [Hhi | Hhi];
        [discriminate |].
      simpl. intros [= <-]. repeat split; [exact Hlo | exact Hhi].
    + simpl. intros [= <-]. repeat split. exact Hlo.
  - intros (-> & Hlo & Hhi).
    destruct (Z.ltb_spec (Js.utf16_length s) lo) as [H | _]; [lia |].
    destruct hi as [[n msg] |]; [| reflexivity].
    destruct (Z.ltb_spec n (Js.utf16_length s)) as [H | _]; [lia |].
    reflexivity.
Qed.

(** A string of at least one code unit is not the empty string. *)
Lemma utf16_length_positive (s : string) :
  1 <= Js.utf16_length s -> s <> "".
Proof. intros H ->. simpl in H. lia. Qed.

Lemma ModelSchema_accepts (key : string) (v : option JVal) (m : string) :
  ModelSchema key v = inr m <->
  (v = None /\ m = GEMINI_MODELS_FLASH) \/
  (v = Some (JStr m) /\ (m = GEMINI_MODELS_FLASH \/ m = GEMINI_MODELS_PRO)).
Proof.
  unfold ModelSchema. split.
  - destruct v as [[| | | s |] |]; try discriminate.
    + case_decide; [| discriminate]. intros [= <-]. right. auto.
    + intros [= <-]. left. auto.
  - intros [[-> ->] | [-> H]]; [reflexivity |].
    rewrite decide_True by exact H. reflexivity.
Qed.

Lemma strict_accepts (shape : gset string) (raw : gmap string JVal) :
  strict shape raw = [] <-> dom raw ⊆ shape.
Proof.
  unfold strict.
  destruct (decide (dom raw ∖ shape = ∅)) as [H | H].
  - split; [intros _ | reflexivity].
    intros x Hx. destruct (decide (x ∈ shape)) as [Hin | Hout]; [exact Hin |].
    assert (Hd : x ∈ dom raw ∖ shape) by (apply elem_of_difference; auto).
    rewrite H in Hd. exfalso. exact (not_elem_of_empty x Hd).
  - split; [discriminate |]. intros Hsub. exfalso. apply H.
    apply set_eq. intros x. rewrite elem_of_difference.
    split; [intros [Hx Hn]; exfalso; auto | intros Hx].
    exfalso. exact (not_elem_of_empty x Hx).
Qed.

Lemma GenerateImageSchema_sound (raw : gmap string JVal)
    (params : GenerateImageInput) :
  GenerateImageSchema raw = inr params ->
  raw !! "prompt" = Some (JStr (gi_prompt params)) /\
  1 <= Js.utf16_length (gi_prompt params) <= 10000 /\
  ((raw !! "model" = None /\ gi_model params = GEMINI_MODELS_FLASH) \/
   (raw !! "model" = Some (JStr (gi_model params)) /\
    (gi_model params = GEMINI_MODELS_FLASH \/
     gi_model params = GEMINI_MODELS_PRO))) /\
  raw !! "output_path" = Some (JStr (gi_output_path params)) /\
  gi_output_path params <> "" /\
  dom raw ⊆ {["prompt"; "model"; "output_path"]}.
Proof.
  unfold GenerateImageSchema, prompt_schema. cbv zeta.
  destruct (z_string "prompt" _ _ _ _) as [? | p] eqn:Hp; [discriminate |].
  destruct (ModelSchema _ _) as [? | m] eqn:Hm; [discriminate |].
  destruct (z_string "output_path" _ _ _ _) as [? | o] eqn:Ho;
    [discriminate |].
  destruct (strict _ _) eqn:Hs; [| discriminate].
  intros [= <-]. simpl.
  apply z_string_accepts in Hp as (Hp & Hp1 & Hp2).
  apply ModelSchema_accepts in Hm.
  apply z_string_accepts in Ho as (Ho & Ho1 & _).
  apply strict_accepts in Hs.
  repeat split; try assumption.
  exact (utf16_length_positive o Ho1).
Qed.

(** [GenerateImageSchema] accepts an arguments object exactly when its
    [prompt] is a string whose length, in UTF-16 code units as JavaScript
    counts it, is between 1 and 10000, its [model] is missing or one of
    the two model identifiers, its [output_path] is a string of length at
    least 1, and it has no other key. The parsed input carries these very
    values, with the flash model for a missing [model]. *)
Theorem GenerateImageSchema_accepts (raw : gmap string JVal)
    (params : GenerateImageInput) :
  GenerateImageSchema raw = inr params <->
  raw !! "prompt" = Some (JStr (gi_prompt params)) /\
  1 <= Js.utf16_length (gi_prompt params) <= 10000 /\
  ((raw !! "model" = None /\ gi_model params = GEMINI_MODELS_FLASH) \/
   (raw !! "model" = Some (JStr (gi_model params)) /\
    (gi_model params = GEMINI_MODELS_FLASH \/
     gi_model params = GEMINI_MODELS_PRO))) /\
  raw !! "output_path" = Some (JStr (gi_output_path params)) /\
  1 <= Js.utf16_length (gi_output_path params) /\
  dom raw ⊆ {["prompt"; "model"; "output_path"]}.
Proof.
  unfold GenerateImageSchema, prompt_schema. cbv zeta. split.
  - destruct (z_string "prompt" _ _ _ _) as [? | p] eqn:Hp; [discriminate |].
    destruct (ModelSchema _ _) as [? | m] eqn:Hm; [discriminate |].
    destruct (z_string "output_path" _ _ _ _) as [? | o] eqn:Ho;
      [discriminate |].
    destruct (strict _ _) eqn:Hs; [| discriminate].
    intros [= <-]. simpl.
    apply z_string_accepts in Hp as (Hp & Hp1 & Hp2).
    apply ModelSchema_accepts in Hm.
    apply z_string_accepts in Ho as (Ho & Ho1 & _).
    apply strict_accepts in Hs.
    repeat split; assumption.
  - destruct params as [p m o]. simpl.
    intros (Hp & [Hp1 Hp2] & Hm & Ho & Ho1 & Hs).
    rewrite (proj2 (z_string_accepts "prompt" _ _ _ _ p)) by auto.
    rewrite (proj2 (ModelSchema_accepts "model" _ m) Hm).
    rewrite (proj2 (z_string_accepts "output_path" 1 _ None _ o)) by auto.
    rewrite (proj2 (strict_accepts _ raw) Hs). reflexivity.
Qed.

(** A euro sign is three bytes in UTF-8 and one code unit: a prompt of
    3334 euro signs is within the bound, one of 10001 is not. An emoji
    outside the basic plane is two code units. *)
Example prompt_length_is_in_code_units :
  Js.utf16_length "€" = 1 /\
  Js.utf16_length "😀" = 2 /\
  prompt_schema (Some (JStr (repeat_string 3334%N "€")))
    = inr (repeat_string 3334%N "€") /\
  prompt_schema (Some (JStr (repeat_string 10001%N "€")))
    = inl [mkIssue (Some "prompt")
                   (too_big "Prompt must not exceed 10000 characters")].
Proof. repeat split; vm_compute; reflexivity. Qed.

(** [EditImageSchema] accepts an arguments object exactly when, besides
    what [GenerateImageSchema] asks of [prompt], [model] and [output_path],
    its [image_path] is a string of length at least 1, and it has no other
    key: an object that carries [image_base64] or [image_mime_type] is
    rejected. Lengths are in UTF-16 code units. *)
Theorem EditImageSchema_accepts (raw : gmap string JVal)
    (params : EditImageInput) :
  EditImageSchema raw = inr params <->
  raw !! "prompt" = Some (JStr (ei_prompt params)) /\
  1 <= Js.utf16_length (ei_prompt params) <= 10000 /\
  raw !! "image_path" = Some (JStr (ei_image_path params)) /\
  1 <= Js.utf16_length (ei_image_path params) /\
  ((raw !! "model" = None /\ ei_model params = GEMINI_MODELS_FLASH) \/
   (raw !! "model" = Some (JStr (ei_model params)) /\
    (ei_model params = GEMINI_MODELS_FLASH \/
     ei_model params = GEMINI_MODELS_PRO))) /\
  raw !! "output_path" = Some (JStr (ei_output_path params)) /\
  1 <= Js.utf16_length (ei_output_path params) /\
  dom raw ⊆ {["prompt"; "image_path"; "model"; "output_path"]}.
Proof.
  unfold EditImageSchema, prompt_schema. cbv zeta. split.
  - destruct (z_string "prompt" _ _ _ _) as [? | p] eqn:Hp; [discriminate |].
    destruct (z_string "image_path" _ _ _ _) as [? | i] eqn:Hi;
      [discriminate |].
    destruct (ModelSchema _ _) as [? | m] eqn:Hm; [discriminate |].
    destruct (z_string "output_path" _ _ _ _) as [? | o] eqn:Ho;
      [discriminate |].
    destruct (strict _ _) eqn:Hs; [| discriminate].
    intros [= <-]. simpl.
    apply z_string_accepts in Hp as (Hp & Hp1 & Hp2).
    apply z_string_accepts in Hi as (Hi & Hi1 & _).
    apply ModelSchema_accepts in Hm.
    apply z_string_accepts in Ho as (Ho & Ho1 & _).
    apply strict_accepts in Hs.
    repeat split; assumption.
  - destruct params as [p i m o]. simpl.
    intros (Hp & [Hp1 Hp2] & Hi & Hi1 & Hm & Ho & Ho1 & Hs).
    rewrite (proj2 (z_string_accepts "prompt" _ _ _ _ p)) by auto.
    rewrite (proj2 (z_string_accepts "image_path" 1 _ None _ i)) by auto.
    rewrite (proj2 (ModelSchema_accepts "model" _ m) Hm).
    rewrite (proj2 (z_string_accepts "output_path" 1 _ None _ o)) by auto.
    rewrite (proj2 (strict_accepts _ raw) Hs). reflexivity.
Qed.

End SchemaFacts.

(* ===================================================================== *)
(** ** The generate tool: validation, generation, saving, report *)
(* ===================================================================== *)

Module HandlerFacts.
Import Types Constants Runtime GeminiClient Schemas Server Tools Spec
       Vocabulary Scenario ClientFacts ResultShape Transport SchemaFacts.

(** The handler by cases: what [generateImage] returned, whether an output
    path is given, and how [mkdir] and [writeFile] end. *)
Lemma generate_image_handler_cases (pf : Platform) (params : GenerateImageInput) :
  exists t r,
    GeminiClient.generateImage pf (gi_prompt params) (gi_model params)
      = (t, inr r) /\
    result_shape (gi_model params) r /\
    let path := gi_output_path params in
    ((success r = false /\
      generate_image_handler pf params = (t, inr (failure_report r))) \/
     (exists img,
        success r = true /\ image r = Some img /\
        ((path = "" /\
          generate_image_handler pf params = (t, inr (inline_report img r))) \/
         (path <> "" /\
          ((exists e,
              fs_mkdir_recursive pf (path_dirname pf path) = Some e /\
              generate_image_handler pf params
                = ((t ++ [mkdir_event pf path])%list,
                   inr (save_failure_report e r))) \/
           (exists e,
              fs_mkdir_recursive pf (path_dirname pf path) = None /\
              fs_writeFile pf path (buffer_from_base64 pf (data img)) = Some e /\
              generate_image_handler pf params
                = ((t ++ [mkdir_event pf path; write_event pf path img])%list,
                   inr (save_failure_report e r))) \/
           (fs_mkdir_recursive pf (path_dirname pf path) = None /\
            fs_writeFile pf path (buffer_from_base64 pf (data img)) = None /\
            generate_image_handler pf params
              = ((t ++ [mkdir_event pf path; write_event pf path img])%list,
                 inr (saved_report path img r)))))))).
Proof.
  destruct (generateImage_shape pf (gi_prompt params) (gi_model params))
    as (r & Hr & Hshape).
  destruct (GeminiClient.generateImage pf (gi_prompt params) (gi_model params))
    as [t o] eqn:Hg.
  simpl in Hr. subst o.
  exists t, r. split; [reflexivity | split; [exact Hshape |]]. cbv zeta.
  unfold generate_image_handler. rewrite Hg. unfold bind. cbv beta.
  destruct Hshape as (_ & Hok & Hfail).
  destruct (success r) eqn:Hs.
  - destruct (Hok eq_refl) as ([img Himg] & _ & _). rewrite Himg.
    right. exists img. split; [reflexivity | split; [reflexivity |]].
    destruct (gi_output_path params) as [| c o] eqn:Ho.
    + left. split; [reflexivity |]. simpl. rewrite ?app_nil_r. reflexivity.
    + right. split; [discriminate |]. cbn [Js.falsy negb].
      unfold saveImageToFile, mkdir, writeFile, bind, try_catch, ret,
        mkdir_event, write_event.
      destruct (fs_mkdir_recursive pf _) as [e |] eqn:Hm; simpl.
      * left. exists e. split; [reflexivity |].
        rewrite ?app_nil_r. reflexivity.
      * destruct (fs_writeFile pf _ _) as [e |] eqn:Hw; simpl.
        -- right. left. exists e. repeat split.
        -- right. right. repeat split.
  - left. split; [reflexivity |].
    destruct (image r); simpl; rewrite ?app_nil_r; reflexivity.
Qed.

Lemma post_of_elem (pf : Platform) (model : string) (request : GeminiRequest)
    (ev : Event) :
  ev ∈ post_of pf model request ->
  exists k,
    process_env pf !! "GEMINI_API_KEY" = Some k /\
    ev = EvPost (request_url model) request (request_config k).
Proof.
  unfold post_of.
  destruct (process_env pf !! "GEMINI_API_KEY") as [k |];
    [| intros Hin; inversion Hin].
  destruct (decide (k = "")) as [_ | _]; [intros Hin; inversion Hin |].
  intros Hin. apply list_elem_of_singleton in Hin. eauto.
Qed.

(** The handler of [nanobanana_generate_image] never throws: whatever the
    environment does, it ends with a report, and the report carries a
    [success] flag and the model that was asked for. *)
Theorem generate_handler_always_reports (pf : Platform)
    (params : GenerateImageInput) :
  exists payload,
    outcome (generate_image_handler pf params) = inr payload /\
    (exists b, ("success", PBool b) ∈ payload) /\
    ("model", PStr (gi_model params)) ∈ payload.
Proof.
  destruct (generate_image_handler_cases pf params)
    as (t & r & Hg & (Hm & _ & _) & Hcases).
  cbv zeta in Hcases.
  destruct Hcases as [[_ ->] | (img & _ & _ & [[_ ->] | [_ Hsave]])];
    [| | destruct Hsave as [(e & _ & ->) | [(e & _ & _ & ->) | (_ & _ & ->)]]];
    eexists; (split; [reflexivity |]);
    unfold failure_report, inline_report, save_failure_report, saved_report;
    rewrite Hm;
    (split; [eexists; apply list_elem_of_here |]);
    repeat first [apply list_elem_of_here | apply list_elem_of_further].
Qed.

(** A failed generation is reported as it is: the report carries the
    result's own error (the fallback "Unknown error occurred" is never
    used), the model and the text, if any; the handler adds no action of
    its own, so no directory is made and no file is written. *)
Theorem failed_generation_is_reported_as_is (pf : Platform)
    (params : GenerateImageInput) (t : list Event) (r : ImageGenerationResult) :
  GeminiClient.generateImage pf (gi_prompt params) (gi_model params)
    = (t, inr r) ->
  success r = false ->
  exists msg,
    error r = Some msg /\
    generate_image_handler pf params =
    (t, inr [("success", PBool false);
             ("error", PStr msg);
             ("model", PStr (gi_model params));
             ("text", of_optional (text r))]).
Proof.
  intros Hg Hs.
  destruct (generate_image_handler_cases pf params)
    as (t' & r' & Hg' & (Hm & _ & Hfail) & Hcases).
  rewrite Hg in Hg'. injection Hg' as <- <-.
  destruct (Hfail Hs) as ((msg & Hmsg & Hne) & _ & _).
  exists msg. split; [exact Hmsg |].
  cbv zeta in Hcases.
  destruct Hcases as [[_ ->] | (img & Hs' & _)]; [| congruence].
  unfold failure_report. rewrite Hmsg, Hm.
  rewrite (JsFacts.or_else_some msg _ Hne). reflexivity.
Qed.

(** A valid call with no key configured: nothing is sent or written, and
    the report is the configuration error. *)
Lemma failed_generation_is_reported_as_is_witness :
  exists msg,
    Some "Error: GEMINI_API_KEY environment variable is required. Get your API key from https://aistudio.google.com/apikey"
      = Some msg /\
    generate_image_handler
      (platform without_key None file_ok (inr balloon))
      (mkGenerateImageInput "a red balloon" GEMINI_MODELS_FLASH "/tmp/out.png")
    = ([], inr [("success", PBool false);
                ("error", PStr msg);
                ("model", PStr GEMINI_MODELS_FLASH);
                ("text", PUndefined)]).
Proof.
  exact (failed_generation_is_reported_as_is
           (platform without_key None file_ok (inr balloon))
           (mkGenerateImageInput "a red balloon" GEMINI_MODELS_FLASH
                                 "/tmp/out.png")
           [] _ eq_refl eq_refl).
Defined.

(** When the image cannot be saved the report is a failure whose error is
    "Failed to save image: " followed by the failure's message, and it
    carries neither the image nor the model's text. If making the
    directory fails, no write is attempted. *)
Theorem save_failure_is_reported (pf : Platform) (params : GenerateImageInput)
    (t : list Event) (r : ImageGenerationResult) (img : GeneratedImage)
    (e : Thrown) :
  GeminiClient.generateImage pf (gi_prompt params) (gi_model params)
    = (t, inr r) ->
  success r = true -> image r = Some img ->
  gi_output_path params <> "" ->
  let path := gi_output_path params in
  let report :=
    [("success", PBool false);
     ("error", PStr ("Failed to save image: " +:+ error_message e));
     ("model", PStr (gi_model params))] in
  (fs_mkdir_recursive pf (path_dirname pf path) = Some e ->
   generate_image_handler pf params =
   ((t ++ [EvMkdir (path_dirname pf path)])%list, inr report)) /\
  (fs_mkdir_recursive pf (path_dirname pf path) = None ->
   fs_writeFile pf path (buffer_from_base64 pf (data img)) = Some e ->
   generate_image_handler pf params =
   ((t ++ [EvMkdir (path_dirname pf path);
           EvWriteFile path (buffer_from_base64 pf (data img))])%list,
    inr report)).
Proof.
  intros Hg Hs Hi Hp. cbv zeta.
  destruct (generate_image_handler_cases pf params)
    as (t' & r' & Hg' & (Hm & _ & _) & Hcases).
  rewrite Hg in Hg'. injection Hg' as <- <-.
  cbv zeta in Hcases.
  destruct Hcases as [[Hs' _] | (img' & _ & Hi' & Hcases)]; [congruence |].
  rewrite Hi in Hi'. injection Hi' as <-.
  destruct Hcases as [[Hp' _] | [_ Hsave]]; [contradiction |].
  unfold save_failure_report, mkdir_event, write_event in Hsave.
  rewrite Hm in Hsave.
  split.
  - intros Hmk.
    destruct Hsave as [(e' & He' & ->) | [(e' & He' & _) | (He' & _)]];
      rewrite Hmk in He'; [| discriminate | discriminate].
    injection He' as <-. reflexivity.
  - intros Hmk Hw.
    destruct Hsave as [(e' & He' & _) | [(e' & _ & He' & ->) | (_ & He' & _)]];
      [rewrite Hmk in He'; discriminate | | rewrite Hw in He'; discriminate].
    rewrite Hw in He'. injection He' as <-. reflexivity.
Qed.

(** The balloon was generated, but [/srv] cannot be made. *)
Lemma save_failure_is_reported_witness :
  generate_image_handler
    (read_only_platform balloon)
    (mkGenerateImageInput "a red balloon" GEMINI_MODELS_FLASH "/srv/out.png")
  = ([EvPost (request_url GEMINI_MODELS_FLASH)
             (generate_request "a red balloon") (request_config "k-123");
      EvMkdir "/srv"],
     inr [("success", PBool false);
          ("error",
           PStr "Failed to save image: EACCES: permission denied, mkdir '/srv'");
          ("model", PStr GEMINI_MODELS_FLASH)]).
Proof.
  refine (proj1 (save_failure_is_reported
            (read_only_platform balloon)
            (mkGenerateImageInput "a red balloon" GEMINI_MODELS_FLASH
                                  "/srv/out.png")
            [EvPost (request_url GEMINI_MODELS_FLASH)
                    (generate_request "a red balloon")
                    (request_config "k-123")]
            (mkResult true (Some "Here is your balloon") (Some png) None
                      GEMINI_MODELS_FLASH (Some "STOP"))
            png (PlainError "EACCES: permission denied, mkdir '/srv'")
            _ eq_refl eq_refl _) eq_refl).
  - vm_compute. reflexivity.
  - discriminate.
Defined.

Lemma call_generate_image_accepted (pf : Platform) (raw : gmap string JVal)
    (params : GenerateImageInput) :
  GenerateImageSchema raw = inr params ->
  trace (call_generate_image pf raw)
    = trace (generate_image_handler pf params) /\
  forall payload,
    outcome (call_generate_image pf raw) = inr (Reported payload) <->
    outcome (generate_image_handler pf params) = inr payload.
Proof.
  intros Hp. unfold call_generate_image. rewrite Hp.
  destruct (generate_image_handler pf params) as [t [e | payload]]; simpl.
  - split; [reflexivity |]. intros payload. split; discriminate.
  - rewrite app_nil_r. split; [reflexivity |].
    intros payload'. split; intros [= ->]; reflexivity.
Qed.



(** Everything a call of the generate tool does is fixed by its
    arguments. A call whose arguments the schema rejects does nothing at
    all: it ends with the issues and an empty trace. An action happens
    only in a call whose arguments are accepted, and then it posts only
    the request for the given prompt, to the URL of one of the two models,
    with the configured key; it makes only the directory of the given
    output path and writes only to that path; it reads no file and logs
    nothing. *)
Theorem tool_actions_are_confined (pf : Platform) (raw : gmap string JVal) :
  (forall issues,
     GenerateImageSchema raw = inl issues ->
     call_generate_image pf raw = ([], inr (Rejected issues))) /\
  forall ev : Event,
  ev ∈ trace (call_generate_image pf raw) ->
  (exists params, GenerateImageSchema raw = inr params) /\
  ((exists prompt m k,
     raw !! "prompt" = Some (JStr prompt) /\
     (m = GEMINI_MODELS_FLASH \/ m = GEMINI_MODELS_PRO) /\
     process_env pf !! "GEMINI_API_KEY" = Some k /\
     ev = EvPost (request_url m) (generate_request prompt) (request_config k)) \/
  (exists path,
     raw !! "output_path" = Some (JStr path) /\
     (ev = EvMkdir (path_dirname pf path) \/
      exists bytes, ev = EvWriteFile path bytes))).
Proof.
  split.
  { intros issues Hp. unfold call_generate_image. rewrite Hp. reflexivity. }
  intros ev Hev.
  destruct (GenerateImageSchema raw) as [issues | params] eqn:Hp.
  { unfold call_generate_image in Hev. rewrite Hp in Hev. inversion Hev. }
  split; [exists params; reflexivity |].
  destruct (call_generate_image_accepted pf raw params Hp) as [Htr _].
  rewrite Htr in Hev. clear Htr.
  destruct (GenerateImageSchema_sound raw params Hp)
    as (Hprompt & _ & Hmodel & Hpath & _ & _).
  assert (Hm : gi_model params = GEMINI_MODELS_FLASH \/
               gi_model params = GEMINI_MODELS_PRO)
    by (destruct Hmodel as [[_ H] | [_ H]]; auto).
  destruct (generate_image_handler_cases pf params)
    as (t & r & Hg & _ & Hcases).
  assert (Ht : t = post_of pf (gi_model params)
                           (generate_request (gi_prompt params))).
  { rewrite <- generateImage_trace. rewrite Hg. reflexivity. }
  assert (Hpost : ev ∈ t ->
                  exists prompt m k,
                    raw !! "prompt" = Some (JStr prompt) /\
                    (m = GEMINI_MODELS_FLASH \/ m = GEMINI_MODELS_PRO) /\
                    process_env pf !! "GEMINI_API_KEY" = Some k /\
                    ev = EvPost (request_url m) (generate_request prompt)
                                (request_config k)).
  { rewrite Ht. intros Hin. apply post_of_elem in Hin as (k & Hk & ->).
    exists (gi_prompt params), (gi_model params), k. auto. }
  cbv zeta in Hcases. unfold mkdir_event, write_event in Hcases.
  destruct Hcases as [[_ H] | (img & _ & _ & [[_ H] | [_ Hsave]])].
  - rewrite H in Hev. left. auto.
  - rewrite H in Hev. left. auto.
  - destruct Hsave as [(e & _ & H) | [(e & _ & _ & H) | (_ & _ & H)]];
      rewrite H in Hev; unfold trace in Hev; simpl in Hev;
      apply elem_of_app in Hev as [Hev | Hev]; try (left; auto; fail);
      right; exists (gi_output_path params); (split; [exact Hpath |]);
      rewrite !elem_of_cons in Hev;
      repeat (destruct Hev as [-> | Hev]; [eauto |]);
      inversion Hev.
Qed.

Lemma tool_actions_are_confined_witness :
  (exists params,
     GenerateImageSchema
       {["prompt" := JStr "a red balloon"; "output_path" := JStr "/tmp/out.png"]}
     = inr params) /\
  ((exists prompt m k,
     ({["prompt" := JStr "a red balloon"; "output_path" := JStr "/tmp/out.png"]}
        : gmap string JVal) !! "prompt" = Some (JStr prompt) /\
     (m = GEMINI_MODELS_FLASH \/ m = GEMINI_MODELS_PRO) /\
     process_env (platform with_key None file_ok (inr balloon))
       !! "GEMINI_API_KEY" = Some k /\
     EvWriteFile "/tmp/out.png" [Byte.x68; Byte.x69]
       = EvPost (request_url m) (generate_request prompt) (request_config k)) \/
  (exists path,
     ({["prompt" := JStr "a red balloon"; "output_path" := JStr "/tmp/out.png"]}
        : gmap string JVal) !! "output_path" = Some (JStr path) /\
     (EvWriteFile "/tmp/out.png" [Byte.x68; Byte.x69]
        = EvMkdir (path_dirname (platform with_key None file_ok (inr balloon))
                                path) \/
      exists bytes,
        EvWriteFile "/tmp/out.png" [Byte.x68; Byte.x69]
          = EvWriteFile path bytes))).
Proof.
  refine (proj2 (tool_actions_are_confined
            (platform with_key None file_ok (inr balloon))
            {["prompt" := JStr "a red balloon";
              "output_path" := JStr "/tmp/out.png"]})
            (EvWriteFile "/tmp/out.png" [Byte.x68; Byte.x69]) _).
  vm_compute.
  repeat first [apply list_elem_of_here | apply list_elem_of_further].
Defined.

End HandlerFacts.

(* ===================================================================== *)
(** ** The other tools and helpers of index.ts *)
(* ===================================================================== *)

Module ToolsFacts.
Import Types Constants Runtime GeminiClient Schemas Server Tools Spec
       Vocabulary Scenario ClientFacts MimeTypes Transport SchemaFacts.

(** After its call to [editImage], the handler of [nanobanana_edit_image]
    treats the result exactly as the handler of [nanobanana_generate_image]
    treats the result of [generateImage]: for the same output path the two
    perform the same actions and report the same object. *)
Theorem edit_report_matches_generate (pf : Platform)
    (g : GenerateImageInput) (e : EditImageInput) :
  gi_output_path g = ei_output_path e ->
  generate_image_handler pf g =
  (result <- generateImage pf (gi_prompt g) (gi_model g) ;;
   edit_image_report pf e result).
Proof.
  intros Hpath. unfold generate_image_handler, edit_image_report, bind.
  destruct (generateImage pf (gi_prompt g) (gi_model g)) as [t [err | r]];
    [reflexivity |].
  rewrite Hpath. reflexivity.
Qed.

Lemma edit_report_matches_generate_witness :
  generate_image_handler
    (platform with_key None file_ok (inr balloon))
    (mkGenerateImageInput "a red balloon" GEMINI_MODELS_FLASH "/tmp/out.png")
  = (result <- generateImage (platform with_key None file_ok (inr balloon))
                             "a red balloon" GEMINI_MODELS_FLASH ;;
     edit_image_report
       (platform with_key None file_ok (inr balloon))
       (mkEditImageInput "make it blue" "/tmp/in.png" GEMINI_MODELS_PRO
                         "/tmp/out.png")
       result).
Proof.
  exact (edit_report_matches_generate
           (platform with_key None file_ok (inr balloon))
           (mkGenerateImageInput "a red balloon" GEMINI_MODELS_FLASH
                                 "/tmp/out.png")
           (mkEditImageInput "make it blue" "/tmp/in.png" GEMINI_MODELS_PRO
                             "/tmp/out.png")
           eq_refl).
Defined.

(** Whatever file [editImage] is pointed at, the POST it issues labels the
    file's bytes with one of the four image types, [image/png] when the
    extension is not a known one; the body is the prompt followed by that
    one inline part, and the URL is the model's. *)
Theorem editImage_sends_an_image_type (pf : Platform)
    (prompt imagePath model : string) (url : string) (body : GeminiRequest)
    (config : AxiosConfig) :
  EvPost url body config ∈ trace (editImage pf prompt imagePath model) ->
  exists buf mime,
    fs_readFile pf imagePath = inr buf /\
    mime ∈ image_mime_types /\
    (Js.toLowerCase (extname pf imagePath) ∉ known_extensions ->
     mime = "image/png") /\
    url = request_url model /\
    body = mkRequest
             [mkContent None
                [textPart prompt;
                 inlineDataPart (mkImage mime (buffer_to_base64 pf buf))]]
             (Some (mkConfig (Some ["TEXT"; "IMAGE"]) None)).
Proof.
  intros Hin.
  assert (Htrace :
            trace (editImage pf prompt imagePath model)
            = EvReadFile imagePath ::
              match fs_readFile pf imagePath with
              | inl _ => []
              | inr buf =>
                  post_of pf model
                    (edit_request prompt (getMimeTypeFromPath pf imagePath)
                                  (buffer_to_base64 pf buf))
              end).
  { unfold editImage, readFile, try_catch, bind.
    destruct (fs_readFile pf imagePath) as [e | buf]; simpl; [reflexivity |].
    rewrite <- makeGeminiRequest_trace.
    destruct (makeGeminiRequest pf model _) as [t [e | response]]; simpl;
      rewrite app_nil_r; reflexivity. }
  rewrite Htrace in Hin. apply elem_of_cons in Hin as [Hin | Hin];
    [discriminate |].
  destruct (fs_readFile pf imagePath) as [e | buf]; [inversion Hin |].
  unfold post_of in Hin.
  destruct (process_env pf !! "GEMINI_API_KEY") as [k |]; [| inversion Hin].
  destruct (decide (k = "")); [inversion Hin |].
  apply list_elem_of_singleton in Hin. injection Hin as -> -> ->.
  exists buf, (getMimeTypeFromPath pf imagePath).
  split; [reflexivity |].
  rewrite getMimeTypeFromPath_lookup. cbv zeta.
  split; [| split; [| split; reflexivity]].
  - unfold image_mime_types.
    repeat case_decide;
      repeat first [apply list_elem_of_here | apply list_elem_of_further].
  - unfold known_extensions. rewrite !not_elem_of_cons.
    intros (H1 & H2 & H3 & H4 & H5 & _).
    repeat case_decide; congruence.
Qed.

(** A text file is sent as [image/png]. *)
Lemma editImage_sends_an_image_type_witness :
  exists buf mime,
    fs_readFile (platform with_key (Some "txt") file_ok (inr refusal))
                "/tmp/notes.txt" = inr buf /\
    mime ∈ image_mime_types /\
    (Js.toLowerCase
       (extname (platform with_key (Some "txt") file_ok (inr refusal))
                "/tmp/notes.txt") ∉ known_extensions ->
     mime = "image/png") /\
    request_url GEMINI_MODELS_FLASH = request_url GEMINI_MODELS_FLASH /\
    edit_request "make it blue" "image/png" "aGk="
    = mkRequest
        [mkContent None
           [textPart "make it blue";
            inlineDataPart
              (mkImage mime
                 (buffer_to_base64
                    (platform with_key (Some "txt") file_ok (inr refusal))
                    buf))]]
        (Some (mkConfig (Some ["TEXT"; "IMAGE"]) None)).
Proof.
  refine (editImage_sends_an_image_type
            (platform with_key (Some "txt") file_ok (inr refusal))
            "make it blue" "/tmp/notes.txt" GEMINI_MODELS_FLASH
            (request_url GEMINI_MODELS_FLASH)
            (edit_request "make it blue" "image/png" "aGk=")
            (request_config "k-123") _).
  vm_compute.
  repeat first [apply list_elem_of_here | apply list_elem_of_further].
Defined.

Lemma extensions_lookup (mime : string) :
  extensions !! mime =
  if decide ("image/png" = mime) then Some ".png"
  else if decide ("image/jpeg" = mime) then Some ".jpg"
  else if decide ("image/webp" = mime) then Some ".webp"
  else if decide ("image/gif" = mime) then Some ".gif"
  else None.
Proof.
  unfold extensions. rewrite !lookup_insert, lookup_empty. reflexivity.
Qed.

(** The two tables agree. The type [getMimeTypeFromPath] gives a path
    always has an extension under [getExtensionFromMimeType], a string and
    one of the known ones, and every path with that extension gets the
    same type back. The extension itself need not come back: [.jpeg]
    returns as [.jpg], and an unknown extension as [.png]. *)
Theorem mime_extension_round_trip (pf : Platform) (filePath : string) :
  exists ext,
    getExtensionFromMimeType (getMimeTypeFromPath pf filePath)
      = ExtString ext /\
    ext ∈ known_extensions /\
    (forall (pf' : Platform) (filePath' : string),
       extname pf' filePath' = ext ->
       getMimeTypeFromPath pf' filePath' = getMimeTypeFromPath pf filePath) /\
    (Js.toLowerCase (extname pf filePath) = ".jpeg" -> ext = ".jpg") /\
    (Js.toLowerCase (extname pf filePath) ∉ known_extensions -> ext = ".png").
Proof.
  rewrite getMimeTypeFromPath_lookup. cbv zeta.
  unfold getExtensionFromMimeType, known_extensions.
  repeat case_decide;
    rewrite extensions_lookup; simpl;
    eexists; (split; [reflexivity |]);
    (split; [repeat first [apply list_elem_of_here
                          | apply list_elem_of_further] |]);
    (split; [intros pf' filePath' Hext;
             rewrite getMimeTypeFromPath_lookup; cbv zeta; rewrite Hext;
             reflexivity |]);
    (split; [intros Heq; try reflexivity; congruence |]);
    rewrite !not_elem_of_cons; intros (Hk1 & Hk2 & Hk3 & Hk4 & Hk5 & _);
    try reflexivity; congruence.
Qed.

(** A type that is not in the table: [.png], unless the string names a
    member of [Object.prototype], in which case the lookup finds that
    member and the function does not return a string. *)
Lemma getExtensionFromMimeType_unknown (mime : string) :
  mime ∉ image_mime_types ->
  getExtensionFromMimeType mime =
  if decide (mime ∈ Object_prototype_keys) then ExtInherited mime
  else ExtString ".png".
Proof.
  unfold image_mime_types. rewrite !not_elem_of_cons.
  intros (Hk1 & Hk2 & Hk3 & Hk4 & _).
  unfold getExtensionFromMimeType. rewrite extensions_lookup.
  repeat case_decide; congruence.
Qed.

Lemma markdown_lines_concat (ms : list ModelInfo) (acc : list string) :
  fold_left (fun lines m => (lines ++ model_lines m)%list) ms acc
  = (acc ++ concat (map model_lines ms))%list.
Proof.
  revert acc. induction ms as [| m ms IH]; intros acc; simpl.
  - rewrite app_nil_r. reflexivity.
  - rewrite IH, <- app_assoc. reflexivity.
Qed.

Lemma model_lines_length (ms : list ModelInfo) :
  length (concat (map model_lines ms)) = (11 * length ms)%nat.
Proof.
  induction ms as [| m ms IH]; [reflexivity |].
  cbn [map concat]. rewrite length_app, IH.
  change (length (model_lines m)) with 11%nat.
  cbn [length]. lia.
Qed.

Lemma model_lines_elem (ms : list ModelInfo) (m : ModelInfo) (line : string) :
  m ∈ ms -> line ∈ model_lines m -> line ∈ concat (map model_lines ms).
Proof.
  intros Hm Hline. induction ms as [| m' ms IH]; [inversion Hm |].
  cbn [map concat]. apply elem_of_app.
  apply elem_of_cons in Hm as [<- | Hm]; [left; exact Hline | right; auto].
Qed.

(** The Markdown listing has two header lines and eleven lines for each
    model, in the order of the models; every model is there with its name
    as a heading and its identifier between backquotes. *)
Theorem markdown_lists_every_model (ms : list ModelInfo) :
  markdown_lines ms =
    ("# Available Gemini Image Generation Models" :: "" ::
     concat (map model_lines ms))%list /\
  length (markdown_lines ms) = (2 + 11 * length ms)%nat /\
  forall m, m ∈ ms ->
    ("## " +:+ name m) ∈ markdown_lines ms /\
    ("**Model ID:** `" +:+ id m +:+ "`") ∈ markdown_lines ms.
Proof.
  assert (H : markdown_lines ms =
              ("# Available Gemini Image Generation Models" :: "" ::
               concat (map model_lines ms))%list).
  { unfold markdown_lines. rewrite markdown_lines_concat. reflexivity. }
  split; [exact H | split].
  - rewrite H. cbn [length]. rewrite model_lines_length. lia.
  - intros m Hm. rewrite H.
    split; do 2 apply list_elem_of_further;
      apply (model_lines_elem ms m _ Hm); unfold model_lines;
      repeat first [apply list_elem_of_here | apply list_elem_of_further].
Qed.

(** The listing and the [model] argument agree: the identifiers that the
    list tool reports are exactly the strings that [ModelSchema] accepts,
    and a call that gives no model gets the first model listed. *)
Theorem listed_models_are_the_accepted_ones (key s : string) :
  (s ∈ map id models <-> ModelSchema key (Some (JStr s)) = inr s) /\
  Some (ModelSchema key None) = (fun m => inr (id m)) <$> head models.
Proof.
  split; [| reflexivity].
  unfold ModelSchema, models. simpl. rewrite !elem_of_cons, elem_of_nil.
  split.
  - intros [-> | [-> | []]]; reflexivity.
  - destruct (decide _) as [[H | H] | H];
      [intros _; left; exact H | intros _; right; left; exact H
      | discriminate].
Qed.

(** [ListModelsSchema] accepts an arguments object exactly when it has no
    key but [response_format] and that is missing, "markdown" or "json";
    a missing format means Markdown. *)
Theorem ListModelsSchema_accepts (raw : gmap string JVal) (f : ResponseFormat) :
  ListModelsSchema raw = inr f <->
  dom raw ⊆ {["response_format"]} /\
  ((raw !! "response_format" = None /\ f = MARKDOWN) \/
   (raw !! "response_format" = Some (JStr "markdown") /\ f = MARKDOWN) \/
   (raw !! "response_format" = Some (JStr "json") /\ f = JSON)).
Proof.
  unfold ListModelsSchema. cbv zeta. split.
  - destruct (strict _ raw) eqn:Hs.
    2:{ destruct (raw !! "response_format") as [[| | | s |] |];
          repeat case_decide; discriminate. }
    apply strict_accepts in Hs. intros Hparse. split; [exact Hs |].
    destruct (raw !! "response_format") as [[| | | s |] |];
      try discriminate Hparse.
    + destruct (decide (s = "markdown")) as [-> | _];
        [injection Hparse as <-; auto |].
      destruct (decide (s = "json")) as [-> | _];
        [injection Hparse as <-; auto | discriminate Hparse].
    + injection Hparse as <-. auto.
  - intros [Hs H]. rewrite (proj2 (strict_accepts _ raw) Hs).
    destruct H as [[-> ->] | [[-> ->] | [-> ->]]]; reflexivity.
Qed.

End ToolsFacts.
